(** * Marketplace demo: session, ban policy and purchase logic

    A shallow embedding of the mock APIs and UI handlers of the marketplace
    application (AuthContext.tsx, ProductDetail.tsx, UserProfile, ProductForm,
    Chat and AdminDashboard.tsx), and the properties of the specification
    proved or refuted on it.

    Conventions of the embedding.
    - A JavaScript string is its list of UTF-16 code units.
    - [number] values that hold money or prices are integer-valued doubles,
      written as the integer ([Z]).  The source compares, adds and subtracts
      them; [+] and [-] give the exact result rounded to the nearest double
      ([roundToDouble]), so they are exact while the result is a double, as
      every integer of magnitude up to 2^53 is.  [NaN], fractions and
      infinities are not represented.
    - A timestamp string is one written by [Date.prototype.toISOString];
      it is identified with its epoch-millisecond value.  Clock readings
      [now] are explicit arguments.  [setDate(getDate() + n)] moves a date by
      [n] days on the local time scale of the host, whose time zone is an
      explicit argument ([TimeZone]); across a clock change that is not
      [n * 86400000] ms.
    - [crypto.randomUUID()] and [generateAuthToken()] results are explicit
      arguments as well.
    - An optional field [f?: T] is an [option T]; [None] is [undefined].
    - A rejected promise and a thrown exception are both [Reject e]; the
      shared JSON tables are threaded through a state monad, so what a call
      wrote before it failed stays written. *)

From Stdlib Require Import ZArith NArith String Ascii.
From stdpp Require Import base numbers option list.

Local Open Scope Z_scope.

(** ** JavaScript strings *)

Abbreviation jsstring := (list N).

(** A string literal of the source, as code units. *)
Definition js (s : string) : jsstring :=
  (λ c, N_of_ascii c) <$> list_ascii_of_string s.

(** White space and line terminators removed by [String.prototype.trim]. *)
Definition isWhiteSpace (c : N) : bool :=
  ((9 <=? c) && (c <=? 13) || (c =? 32) || (c =? 160) || (c =? 5760)
   || (8192 <=? c) && (c <=? 8202) || (c =? 8232) || (c =? 8233)
   || (c =? 8239) || (c =? 8287) || (c =? 12288) || (c =? 65279))%N.

Fixpoint trimStart (s : jsstring) : jsstring :=
  match s with
  | c :: s' => if isWhiteSpace c then trimStart s' else s
  | [] => []
  end.

Definition trimEnd (s : jsstring) : jsstring := reverse (trimStart (reverse s)).

Definition trim (s : jsstring) : jsstring := trimEnd (trimStart s).

(** [s.length]. *)
Definition jslength (s : jsstring) : Z := Z.of_nat (length s).

(** Truthiness of a string: [!s] holds for the empty string. *)
Definition truthy (s : jsstring) : bool :=
  match s with [] => false | _ => true end.

(** Truthiness of an optional string field such as [product.purchasedBy]. *)
Definition truthy_opt (o : option jsstring) : bool :=
  match o with Some s => truthy s | None => false end.

(** Truthiness of an optional boolean field ([isAdmin], [isDeleted]). *)
Definition truthy_flag (o : option bool) : bool :=
  match o with Some b => b | None => false end.

(** ** Data model (types.ts) *)

Record User := mkUser {
  username : jsstring;
  password : jsstring;
  bio : option jsstring;
  isAdmin : option bool;
  canLogin : bool;
  banExpiry : option Z;
  balance : Z
}.

Record Product := mkProduct {
  p_id : jsstring;
  title : jsstring;
  description : jsstring;
  price : Z;
  imageUrl : jsstring;
  author : jsstring;
  createdAt : Z;
  purchasedBy : option jsstring;
  purchasedAt : option Z;
  isDeleted : option bool
}.

Inductive ReportType := TUser | TPost | TChat | TProduct.

Record Report := mkReport {
  r_id : jsstring;
  reportedUser : jsstring;
  reason : jsstring;
  reportedBy : jsstring;
  r_createdAt : Z;
  r_type : ReportType;
  contentId : option jsstring
}.

Record ChatMessage := mkChatMessage {
  m_id : jsstring;
  content : jsstring;
  m_author : jsstring;
  m_createdAt : Z;
  isPrivate : option bool;
  recipient : option jsstring
}.

(** The user object after [const { password: _, ...userWithoutPassword }]. *)
Record PublicUser := mkPublicUser {
  pu_username : jsstring;
  pu_bio : option jsstring;
  pu_isAdmin : option bool;
  pu_canLogin : bool;
  pu_banExpiry : option Z;
  pu_balance : Z
}.

Definition withoutPassword (u : User) : PublicUser :=
  {| pu_username := username u; pu_bio := bio u; pu_isAdmin := isAdmin u;
     pu_canLogin := canLogin u; pu_banExpiry := banExpiry u;
     pu_balance := balance u |}.

(** Field updates ([{ ...x, f: v }] and [x.f = v]). *)
Definition set_balance (b : Z) (u : User) : User :=
  {| username := username u; password := password u; bio := bio u;
     isAdmin := isAdmin u; canLogin := canLogin u; banExpiry := banExpiry u;
     balance := b |}.

Definition set_ban (c : bool) (e : option Z) (u : User) : User :=
  {| username := username u; password := password u; bio := bio u;
     isAdmin := isAdmin u; canLogin := c; banExpiry := e;
     balance := balance u |}.

Definition set_purchase (by_ : jsstring) (at_ : Z) (p : Product) : Product :=
  {| p_id := p_id p; title := title p; description := description p;
     price := price p; imageUrl := imageUrl p; author := author p;
     createdAt := createdAt p; purchasedBy := Some by_;
     purchasedAt := Some at_; isDeleted := isDeleted p |}.

Definition set_isDeleted (d : bool) (p : Product) : Product :=
  {| p_id := p_id p; title := title p; description := description p;
     price := price p; imageUrl := imageUrl p; author := author p;
     createdAt := createdAt p; purchasedBy := purchasedBy p;
     purchasedAt := purchasedAt p; isDeleted := Some d |}.

(** The four JSON tables shared by every component
    ([usersData.users], [productsData.products], [reportsData.reports],
    [chatData.messages]). *)
Record Store := mkStore {
  users : list User;
  products : list Product;
  reports : list Report;
  messages : list ChatMessage
}.

Definition set_users (us : list User) (s : Store) : Store :=
  {| users := us; products := products s; reports := reports s;
     messages := messages s |}.

Definition set_products (ps : list Product) (s : Store) : Store :=
  {| users := users s; products := ps; reports := reports s;
     messages := messages s |}.

Definition set_reports (rs : list Report) (s : Store) : Store :=
  {| users := users s; products := products s; reports := rs;
     messages := messages s |}.

Definition set_messages (ms : list ChatMessage) (s : Store) : Store :=
  {| users := users s; products := products s; reports := reports s;
     messages := ms |}.

(** ** Failures

    One constructor per error message of the source. *)
Inductive Error :=
  | ProductNotFound        (* "cannot find the product" *)
  | AlreadySold            (* "product already sold" *)
  | BuyerNotFound          (* "cannot find the user information" *)
  | InsufficientBalance    (* "balance is insufficient" *)
  | InvalidCredentials     (* "id or password is not correct" *)
  | Banned (days : Z)      (* "cannot log in for ${days} days" *)
  | UserNotFound           (* "cannot find the user" *)
  | AdminRequired          (* "administrator permission required" *)
  | BanOutOfRange          (* "ban period must be between 1 and 365 days" *)
  | ReasonTooShort         (* "reason must be at least 5 characters" *)
  | ReasonRequired         (* "enter the reason of the report" *)
  | TooLong (max : Z)      (* "at most ${max} characters" *)
  | LoginRequired          (* "login required" *)
  | OwnContent             (* "cannot report your own product / message" *)
  | NoEditPermission       (* "no permission to edit the product" *)
  | NoDeletePermission     (* "no permission to delete the product" *)
  | MessageNotFound        (* "cannot find the message" *)
  | SyntaxError.           (* JSON.parse *)

Inductive result (A : Type) :=
  | Resolve (a : A)
  | Reject (e : Error).
Arguments Resolve {A} a.
Arguments Reject {A} e.

(** ** State and failure monad *)

Definition M (S A : Type) : Type := S → result A * S.

Definition ret {S A} (a : A) : M S A := λ s, (Resolve a, s).
Definition reject {S A} (e : Error) : M S A := λ s, (Reject e, s).
Definition bind {S A B} (m : M S A) (k : A → M S B) : M S B :=
  λ s, match m s with
       | (Resolve a, s') => k a s'
       | (Reject e, s') => (Reject e, s')
       end.
Definition gets {S A} (f : S → A) : M S A := λ s, (Resolve (f s), s).
Definition modify {S} (f : S → S) : M S unit := λ s, (Resolve tt, f s).

(** [try { m } catch (e) { h e }]. *)
Definition try_catch {S A} (m : M S A) (h : Error → M S A) : M S A :=
  λ s, match m s with
       | (Resolve a, s') => (Resolve a, s')
       | (Reject e, s') => h e s'
       end.

Declare Scope js_scope.
Delimit Scope js_scope with js.
Notation "'let*' x := m 'in' k" := (bind m (λ x, k))
  (at level 10, x name, m at level 100, k at level 200) : js_scope.
Notation "m ;; k" := (bind m (λ _, k))
  (at level 100, k at level 200, right associativity) : js_scope.
Local Open Scope js_scope.

(** ** Array helpers: [find] and [findIndex] by key *)

Definition find_user (name : jsstring) (us : list User) : option (nat * User) :=
  list_find (λ u, username u = name) us.

Definition find_product (pid : jsstring) (ps : list Product)
  : option (nat * Product) :=
  list_find (λ p, p_id p = pid) ps.

(** [usersData.users.find(u => u.username === name)] *)
Definition user_named (name : jsstring) (us : list User) : option User :=
  snd <$> find_user name us.

(** [usersData.users.findIndex(u => u.username === name)]; [None] is -1. *)
Definition userIndex_of (name : jsstring) (us : list User) : option nat :=
  fst <$> find_user name us.

(** ** Numbers

    [x + y] and [x - y] on integer-valued doubles: the exact integer result,
    rounded to the nearest double (a 53-bit significand), ties to the even
    significand. *)
Definition roundToDouble (z : Z) : Z :=
  let m := Z.abs z in
  if m <? 2 ^ 53 then z else
  let shift := Z.log2 m - 52 in
  let q := m / 2 ^ shift in
  let r := m mod 2 ^ shift in
  let half := 2 ^ (shift - 1) in
  let q' := if r <? half then q
            else if half <? r then q + 1
            else if Z.even q then q else q + 1 in
  Z.sgn z * (q' * 2 ^ shift).

Definition num_add (x y : Z) : Z := roundToDouble (x + y).
Definition num_sub (x y : Z) : Z := roundToDouble (x - y).

(** The integer [z] is a double: rounding leaves it as it is, and it lies
    below 2^1024, where doubles end.  A sum or difference beyond that is
    [Infinity] in the source and is not represented; the statements that
    depend on a sum or a difference ask for it to be a double. *)
Definition isDouble (z : Z) : Prop :=
  roundToDouble z = z ∧ Z.abs z < 2 ^ 1024.

(** [Number.isSafeInteger(z)] for an integer [z]. *)
Definition isSafeInteger (z : Z) : Prop := - 2 ^ 53 < z < 2 ^ 53.

(** ** ProductDetail.tsx: [api.purchaseProduct]

    [buyerIndex] is computed by a second [findIndex] with the predicate that
    found [buyer], so it is never -1; the [None] branch of the model and the
    [default] of the final read stand for code that cannot run. *)

Record PurchaseResult := mkPurchaseResult {
  pr_product : Product;
  buyerBalance : Z
}.

Definition purchaseProduct (now : Z) (productId uname : jsstring)
  : M Store PurchaseResult :=
  let* found := gets (λ s, find_product productId (products s)) in
  match found with
  | None => reject ProductNotFound
  | Some (productIndex, product) =>
    if truthy_opt (purchasedBy product) then reject AlreadySold else
    let* buyer := gets (λ s, user_named uname (users s)) in
    match buyer with
    | None => reject BuyerNotFound
    | Some buyer =>
      if balance buyer <? price product then reject InsufficientBalance else
      let* buyerIndex := gets (λ s, userIndex_of uname (users s)) in
      match buyerIndex with
      | None => reject BuyerNotFound
      | Some buyerIndex =>
        modify (λ s, set_users
          (alter (λ u, set_balance (num_sub (balance u) (price product)) u)
                 buyerIndex (users s)) s) ;;
        let* sellerIndex :=
          gets (λ s, userIndex_of (author product) (users s)) in
        match sellerIndex with
        | Some sellerIndex =>
            modify (λ s, set_users
              (alter (λ u, set_balance (num_add (balance u) (price product)) u)
                     sellerIndex (users s)) s)
        | None => ret tt
        end ;;
        let updatedProduct := set_purchase uname now product in
        modify (λ s, set_products
          (<[productIndex := updatedProduct]> (products s)) s) ;;
        let* newBalance :=
          gets (λ s, balance <$> (users s !! buyerIndex)) in
        ret {| pr_product := updatedProduct;
               buyerBalance := default 0 newBalance |}
      end
    end
  end.

(** ** ProductDetail.tsx: [api.cleanupPurchasedProducts] *)

Definition DAY : Z := 24 * 60 * 60 * 1000.

(** The test of the [map] callback: [p.purchasedAt] is set,
    [now > purchasedAt + 24h] and [!p.isDeleted]. *)
Definition sweepable (now : Z) (p : Product) : bool :=
  match purchasedAt p with
  | Some purchaseDate =>
      let oneDayLater := purchaseDate + DAY in
      (oneDayLater <? now) && negb (truthy_flag (isDeleted p))
  | None => false
  end.

Definition sweep_one (now : Z) (p : Product) : Product :=
  if sweepable now p then set_isDeleted true p else p.

(** Returns the [updated] flag. *)
Definition cleanupPurchasedProducts (now : Z) : M Store bool :=
  let* ps := gets products in
  let updated := existsb (sweepable now) ps in
  modify (set_products (sweep_one now <$> ps)) ;;
  ret updated.

(** ** ProductDetail.tsx: [api.updateProduct], [api.deleteProduct] *)

(** [Partial<Product>]: every field may be absent. *)
Record ProductPatch := mkPatch {
  pt_id : option jsstring;
  pt_title : option jsstring;
  pt_description : option jsstring;
  pt_price : option Z;
  pt_imageUrl : option jsstring;
  pt_author : option jsstring;
  pt_createdAt : option Z;
  pt_purchasedBy : option (option jsstring);
  pt_purchasedAt : option (option Z);
  pt_isDeleted : option (option bool)
}.

(** [{ ...product, ...updatedData }] *)
Definition merge (p : Product) (d : ProductPatch) : Product :=
  {| p_id := default (p_id p) (pt_id d);
     title := default (title p) (pt_title d);
     description := default (description p) (pt_description d);
     price := default (price p) (pt_price d);
     imageUrl := default (imageUrl p) (pt_imageUrl d);
     author := default (author p) (pt_author d);
     createdAt := default (createdAt p) (pt_createdAt d);
     purchasedBy := default (purchasedBy p) (pt_purchasedBy d);
     purchasedAt := default (purchasedAt p) (pt_purchasedAt d);
     isDeleted := default (isDeleted p) (pt_isDeleted d) |}.

(** The object literal [{ title, description, price, imageUrl }] that
    [handleUpdate], the only caller of [api.updateProduct], passes. *)
Definition formPatch (t d : jsstring) (pr : Z) (img : jsstring) : ProductPatch :=
  {| pt_id := None; pt_title := Some t; pt_description := Some d;
     pt_price := Some pr; pt_imageUrl := Some img; pt_author := None;
     pt_createdAt := None; pt_purchasedBy := None; pt_purchasedAt := None;
     pt_isDeleted := None |}.

(** [usersData.users.find(u => u.username === username)?.isAdmin] *)
Definition isAdmin_named (name : jsstring) (us : list User) : bool :=
  truthy_flag (user_named name us ≫= isAdmin).

(** [product.author !== username && !(...)?.isAdmin] negated. *)
Definition may_manage (p : Product) (name : jsstring) (us : list User) : bool :=
  bool_decide (author p = name) || isAdmin_named name us.

Definition updateProduct (productId : jsstring) (updatedData : ProductPatch)
    (uname : jsstring) : M Store Product :=
  let* found := gets (λ s, find_product productId (products s)) in
  match found with
  | None => reject ProductNotFound
  | Some (productIndex, product) =>
    let* allowed := gets (λ s, may_manage product uname (users s)) in
    if negb allowed then reject NoEditPermission else
    let updatedProduct := merge product updatedData in
    modify (λ s, set_products
      (<[productIndex := updatedProduct]> (products s)) s) ;;
    ret updatedProduct
  end.

Definition deleteProduct (productId uname : jsstring) : M Store Product :=
  let* found := gets (λ s, find_product productId (products s)) in
  match found with
  | None => reject ProductNotFound
  | Some (productIndex, product) =>
    let* allowed := gets (λ s, may_manage product uname (users s)) in
    if negb allowed then reject NoDeletePermission else
    let updatedProduct := set_isDeleted true product in
    modify (λ s, set_products
      (<[productIndex := updatedProduct]> (products s)) s) ;;
    ret updatedProduct
  end.

(** ** ProductForm: [api.createProduct]

    [productData] is [{ title, description, price, imageUrl, author }],
    with [price] the form's [parseInt(price)]; a text for which that is
    [NaN] is not represented. *)
Definition createProduct (now : Z) (uuid : jsstring)
    (t d : jsstring) (pr : Z) (img a : jsstring) : M Store Product :=
  let newProduct :=
    {| p_id := uuid; title := t; description := d; price := pr;
       imageUrl := img; author := a; createdAt := now;
       purchasedBy := None; purchasedAt := None; isDeleted := Some false |} in
  modify (λ s, set_products (products s ++ [newProduct]) s) ;;
  ret newProduct.

(** ** AuthContext.tsx: [api.login]

    [foundUser] is a reference to the object in the table: the model keeps
    its index and writes the two assignments back at that index. *)

Record LoginResult := mkLoginResult {
  lr_user : PublicUser;
  lr_token : jsstring
}.

(** Upwards-rounded quotient, [Math.ceil(a / b)] on integers. *)
Definition ceil_div (a b : Z) : Z := - ((- a) / b).

(** The two assignments [foundUser.canLogin = true] and
    [foundUser.banExpiry = undefined]. *)
Definition liftBan (i : nat) : M Store unit :=
  modify (λ s, set_users (alter (set_ban true None) i (users s)) s).

(** [new Date(foundUser.banExpiry || '')] is an invalid date when the expiry
    is absent, and an invalid date is not greater than the current one. *)
Definition login (now : Z) (freshToken : jsstring) (uname pw : jsstring)
  : M Store LoginResult :=
  let* found := gets (λ s, find_user uname (users s)) in
  match found with
  | None => reject InvalidCredentials
  | Some (i, foundUser) =>
    let passwordMatches := bool_decide (password foundUser = pw) in
    if negb passwordMatches then reject InvalidCredentials else
    (if negb (canLogin foundUser) then
       match banExpiry foundUser with
       | Some expiry =>
           if now <? expiry then
             let days := ceil_div (expiry - now) DAY in
             reject (Banned days)
           else liftBan i
       | None => liftBan i
       end
     else ret tt) ;;
    let* current := gets (λ s, default foundUser (users s !! i)) in
    ret {| lr_user := withoutPassword current; lr_token := freshToken |}
  end.

(** ** Dates on the local time scale

    [getDate] and [setDate] read and write the local time of the host:
    ECMAScript's [LocalTime(t) = t + LocalTZA(t, true)] and
    [UTC(t) = t - LocalTZA(t, false)].  A time zone is given by these two
    offset functions, of a UTC time value and of a local one. *)
Record TimeZone := mkTimeZone {
  offset_at_utc : Z → Z;
  offset_at_local : Z → Z
}.

Definition LocalTime (tz : TimeZone) (t : Z) : Z := t + offset_at_utc tz t.
Definition UTC (tz : TimeZone) (t : Z) : Z := t - offset_at_local tz t.

(** [d.setDate(d.getDate() + n)] on a date with time value [t]: [MakeDay]
    carries a day of the month beyond the month's end into the months that
    follow, so the local time value moves by [n] days and is read back as
    UTC. *)
Definition addDays (tz : TimeZone) (t n : Z) : Z :=
  UTC tz (LocalTime tz t + n * DAY).

(** ** UserProfile: [api.banUser], [api.unbanUser], [api.reportUser]

    [days] is a [number]; its one caller passes [parseInt(banDuration)],
    an integer or [NaN] ([None]).  On an integer in range, the inner
    [parseInt(days)] is the identity. *)

Record BanResult := mkBanResult {
  br_user : User;
  expiryDate : Z
}.

Definition banUser (tz : TimeZone) (now : Z) (uname : jsstring)
    (days : option Z) (adminUsername : jsstring) : M Store BanResult :=
  let* adminOk := gets (λ s, isAdmin_named adminUsername (users s)) in
  if negb adminOk then reject AdminRequired else
  match days with
  | None => reject BanOutOfRange
  | Some d =>
    if (d <=? 0) || (365 <? d) then reject BanOutOfRange else
    let* found := gets (λ s, find_user uname (users s)) in
    match found with
    | None => reject UserNotFound
    | Some (userIndex, u) =>
      let banExpiry' := addDays tz now d in
      let banned := set_ban false (Some banExpiry') u in
      modify (λ s, set_users (<[userIndex := banned]> (users s)) s) ;;
      ret {| br_user := banned; expiryDate := banExpiry' |}
    end
  end.

Definition unbanUser (uname adminUsername : jsstring) : M Store User :=
  let* adminOk := gets (λ s, isAdmin_named adminUsername (users s)) in
  if negb adminOk then reject AdminRequired else
  let* found := gets (λ s, find_user uname (users s)) in
  match found with
  | None => reject UserNotFound
  | Some (userIndex, u) =>
    let restored := set_ban true None u in
    modify (λ s, set_users (<[userIndex := restored]> (users s)) s) ;;
    ret restored
  end.

Definition push_report (r : Report) : M Store unit :=
  modify (λ s, set_reports (reports s ++ [r]) s).

Definition reportUser (now : Z) (uuid : jsstring)
    (target reason' reporterUsername : jsstring) : M Store unit :=
  if negb (truthy reason') || (jslength (trim reason') <? 5)
  then reject ReasonTooShort
  else push_report
    {| r_id := uuid; r_type := TUser; reportedUser := target;
       reason := reason'; reportedBy := reporterUsername;
       r_createdAt := now; contentId := None |}.

(** ** ProductDetail.tsx: [api.reportProduct] and Chat: [api.reportMessage] *)

Definition reportProduct (now : Z) (uuid : jsstring)
    (productId reason' uname : jsstring) : M Store unit :=
  let* found := gets (λ s, find_product productId (products s)) in
  match found with
  | None => reject ProductNotFound
  | Some (_, product) =>
    push_report
      {| r_id := uuid; r_type := TProduct; contentId := Some productId;
         reportedUser := author product; reason := reason';
         reportedBy := uname; r_createdAt := now |}
  end.

Definition reportMessage (report : Report) : M Store unit :=
  push_report report.

(** ** Report forms

    The three [handleReport] handlers.  A handler shows its failure as a
    toast or a form error and returns; the model returns that failure as
    [Reject].  [sanitize] is [DOMPurify.sanitize]. *)

Section ReportForms.
Variable sanitize : jsstring → jsstring.

Definition sanitizeText (text : jsstring) : jsstring :=
  if negb (truthy text) then [] else sanitize text.

(** UserProfile: [handleReport]; [target] is the profile's username. *)
Definition handleReport_user (now : Z) (uuid : jsstring)
    (user : option PublicUser) (target reportReason : jsstring)
  : M Store unit :=
  match user with
  | None => reject LoginRequired
  | Some user =>
    if negb (truthy (trim reportReason)) then reject ReasonRequired else
    if jslength (trim reportReason) <? 5 then reject ReasonTooShort else
    let sanitizedReason := sanitizeText (trim reportReason) in
    reportUser now uuid target sanitizedReason (pu_username user)
  end.

(** ProductDetail.tsx: [handleReport]; [product] is the product on
    display and [pid] the route parameter. *)
Definition handleReport_product (now : Z) (uuid : jsstring)
    (user : option PublicUser) (product : option Product)
    (pid reportReason : jsstring) : M Store unit :=
  match user with
  | None => reject LoginRequired
  | Some user =>
    if bool_decide (author <$> product = Some (pu_username user))
    then reject OwnContent else
    if negb (truthy (trim reportReason)) then reject ReasonRequired else
    if jslength reportReason <? 5 then reject ReasonTooShort else
    let sanitizedReason := sanitizeText (trim reportReason) in
    reportProduct now uuid pid sanitizedReason (pu_username user)
  end.

(** Chat: [validateInput(text, minLength, maxLength)]. *)
Definition validateInput (text : jsstring) (minLength maxLength : Z)
  : option Error :=
  if negb (truthy text) || (jslength (trim text) <? minLength)
  then Some ReasonTooShort
  else if maxLength <? jslength text then Some (TooLong maxLength)
  else None.

(** Chat: [handleReport]. *)
Definition handleReport_chat (now : Z) (uuid : jsstring)
    (user : option PublicUser) (message : ChatMessage)
    (reportReason : jsstring) : M Store unit :=
  match user with
  | None => reject LoginRequired
  | Some user =>
    if bool_decide (m_author message = pu_username user)
    then reject OwnContent else
    match validateInput reportReason 5 200 with
    | Some e => reject e
    | None =>
      let sanitizedReason := sanitizeText (trim reportReason) in
      reportMessage
        {| r_id := uuid; r_type := TChat; contentId := Some (m_id message);
           reportedUser := m_author message; reason := sanitizedReason;
           reportedBy := pu_username user; r_createdAt := now |}
    end
  end.
End ReportForms.

(** ** AdminDashboard.tsx

    The component keeps its own [reports] array next to the shared table.
    [banDuration] is the value of a [<select>] whose options are 1, 3, 7 and
    30 (initially 7), so it is modelled by the option chosen.  With these
    values nothing inside the handlers' [try] blocks throws. *)

Inductive BanOption := Days1 | Days3 | Days7 | Days30.

(** [parseInt(banDuration)] *)
Definition parseInt_option (o : BanOption) : Z :=
  match o with Days1 => 1 | Days3 => 3 | Days7 => 7 | Days30 => 30 end.

Record Dashboard := mkDashboard {
  d_reports : list Report;
  banDuration : BanOption;
  bannedUsers : list User
}.

Record Admin := mkAdmin {
  store : Store;
  dash : Dashboard
}.

(** The initial [useState] values when the dashboard mounts. *)
Definition mountDashboard (s : Store) : Admin :=
  {| store := s;
     dash := {| d_reports := reports s; banDuration := Days7;
                bannedUsers := filter (λ u, canLogin u = false) (users s) |} |}.

Definition on_store (f : Store → Store) : M Admin unit :=
  modify (λ a, {| store := f (store a); dash := dash a |}).

Definition setReports (rs : list Report) : M Admin unit :=
  modify (λ a, {| store := store a;
                  dash := {| d_reports := rs;
                             banDuration := banDuration (dash a);
                             bannedUsers := bannedUsers (dash a) |} |}).

Definition setBannedUsers : M Admin unit :=
  modify (λ a, {| store := store a;
                  dash := {| d_reports := d_reports (dash a);
                             banDuration := banDuration (dash a);
                             bannedUsers :=
                               filter (λ u, canLogin u = false)
                                      (users (store a)) |} |}).

Definition setBanDuration (o : BanOption) : M Admin unit :=
  modify (λ a, {| store := store a;
                  dash := {| d_reports := d_reports (dash a);
                             banDuration := o;
                             bannedUsers := bannedUsers (dash a) |} |}).

(** [reportsData.reports = [...newReports]] *)
Definition updateReportsData (newReports : list Report) : M Admin unit :=
  on_store (set_reports newReports).

Definition verifyAdminAndExecute (user : option PublicUser)
    (action : M Admin unit) : M Admin unit :=
  if truthy_flag (user ≫= pu_isAdmin) then action else reject AdminRequired.

Definition handleBanUser (tz : TimeZone) (now : Z)
    (user : option PublicUser) (uname : jsstring) : M Admin unit :=
  verifyAdminAndExecute user (
    let* duration := gets (λ a, banDuration (dash a)) in
    let banExpiry' := addDays tz now (parseInt_option duration) in
    let* found := gets (λ a, find_user uname (users (store a))) in
    match found with
    | Some (userIndex, u) =>
        on_store (λ s, set_users
          (<[userIndex := set_ban false (Some banExpiry') u]> (users s)) s)
    | None => ret tt
    end ;;
    setBannedUsers ;;
    let* current := gets (λ a, d_reports (dash a)) in
    let updatedReports := filter (λ r, reportedUser r ≠ uname) current in
    updateReportsData updatedReports ;;
    setReports updatedReports).

Definition handleUnbanUser (user : option PublicUser) (uname : jsstring)
  : M Admin unit :=
  verifyAdminAndExecute user (
    let* found := gets (λ a, find_user uname (users (store a))) in
    match found with
    | Some (userIndex, u) =>
        on_store (λ s, set_users
          (<[userIndex := set_ban true None u]> (users s)) s) ;;
        setBannedUsers
    | None => ret tt
    end).

(** [findIndex(x => x.id === report.contentId)]: an absent [contentId] is
    [undefined] and equals no id. *)
Definition messageIndex_of (cid : option jsstring) (ms : list ChatMessage)
  : option nat :=
  match cid with
  | Some c => fst <$> list_find (λ m, m_id m = c) ms
  | None => None
  end.

Definition product_of (cid : option jsstring) (ps : list Product)
  : option (nat * Product) :=
  match cid with
  | Some c => find_product c ps
  | None => None
  end.

Definition removeReport (reportId : jsstring) : M Admin unit :=
  let* current := gets (λ a, d_reports (dash a)) in
  let updatedReports := filter (λ r, r_id r ≠ reportId) current in
  updateReportsData updatedReports ;;
  setReports updatedReports.

Definition handleDeleteContent (user : option PublicUser) (report : Report)
  : M Admin unit :=
  verifyAdminAndExecute user (
    match r_type report with
    | TChat =>
        let* messageIndex :=
          gets (λ a, messageIndex_of (contentId report) (messages (store a))) in
        match messageIndex with
        | Some i => on_store (λ s, set_messages (delete i (messages s)) s)
        | None => reject MessageNotFound
        end
    | TProduct =>
        let* found :=
          gets (λ a, product_of (contentId report) (products (store a))) in
        match found with
        | Some (productIndex, p) =>
            on_store (λ s, set_products
              (<[productIndex := set_isDeleted true p]> (products s)) s)
        | None => reject ProductNotFound
        end
    | _ => ret tt
    end ;;
    removeReport (r_id report)).

Definition handleDismissReport (user : option PublicUser)
    (reportId : jsstring) : M Admin unit :=
  verifyAdminAndExecute user (removeReport reportId).

(** ** AuthContext.tsx: the [storage] wrapper and [initializeAuth] *)

(** Values produced by [JSON.parse]; an object lists its own properties.
    Of a number only its being zero or not is ever inspected, so numbers
    are kept as integers. *)
#[local] Unset Elimination Schemes.
Inductive json :=
  | JNull
  | JBool (b : bool)
  | JNum (n : Z)
  | JStr (s : jsstring)
  | JArr (items : list json)
  | JObj (fields : list (jsstring * json)).
#[local] Set Elimination Schemes.

(** What [localStorage] holds under ['auth_session']: nothing, or a text
    together with what [JSON.parse] makes of that text ([None]: it throws
    a [SyntaxError]). *)
Inductive Persisted :=
  | Missing
  | Text (raw : jsstring) (parsed : option json).

Record AuthCtx := mkAuthCtx {
  ctx_user : option PublicUser;
  isLoading : bool;
  auth_session : Persisted
}.

(** Truthiness of a value that may be [undefined]. *)
Definition truthy_json (v : option json) : bool :=
  match v with
  | None | Some JNull => false
  | Some (JBool b) => b
  | Some (JNum n) => negb (n =? 0)
  | Some (JStr s) => truthy s
  | Some (JArr _) | Some (JObj _) => true
  end.

(** Property read [v.key] on a truthy value. *)
Definition prop (key : jsstring) (v : json) : option json :=
  match v with
  | JObj fields => snd <$> (snd <$> list_find (λ kv, kv.1 = key) fields)
  | _ => None
  end.

Definition setUser (u : option PublicUser) : M AuthCtx unit :=
  modify (λ c, {| ctx_user := u; isLoading := isLoading c;
                  auth_session := auth_session c |}).

Definition setIsLoading (b : bool) : M AuthCtx unit :=
  modify (λ c, {| ctx_user := ctx_user c; isLoading := b;
                  auth_session := auth_session c |}).

(** [localStorage.getItem('auth_session')] *)
Definition getItem : M AuthCtx (option jsstring) :=
  gets (λ c, match auth_session c with
             | Missing => None
             | Text raw _ => Some raw
             end).

(** [JSON.parse(value)] for the stored text. *)
Definition JSON_parse : M AuthCtx json :=
  λ c, match auth_session c with
       | Text _ (Some v) => (Resolve v, c)
       | _ => (Reject SyntaxError, c)
       end.

(** [storage.get('auth_session')] *)
Definition storage_get : M AuthCtx json :=
  try_catch
    (let* value := getItem in
     if truthy_opt value then JSON_parse else ret JNull)
    (λ _, ret JNull).

(** [storage.remove('auth_session')] *)
Definition storage_remove : M AuthCtx bool :=
  modify (λ c, {| ctx_user := ctx_user c; isLoading := isLoading c;
                  auth_session := Missing |}) ;;
  ret true.

(** [api.getUser(sessionData.userId)]: only a string is [===] to a
    username. *)
Definition getUser (s : Store) (userId : option json) : M AuthCtx PublicUser :=
  match userId with
  | Some (JStr name) =>
      match user_named name (users s) with
      | Some foundUser => ret (withoutPassword foundUser)
      | None => reject UserNotFound
      end
  | _ => reject UserNotFound
  end.

(** The guard [sessionData && sessionData.token && sessionData.userId]. *)
Definition complete_session (sessionData : json) : bool :=
  truthy_json (Some sessionData)
  && truthy_json (prop (js "token") sessionData)
  && truthy_json (prop (js "userId") sessionData).

(** [try { ... } catch (error) { ... } finally { setIsLoading(false) }] *)
Definition initializeAuth (s : Store) : M AuthCtx unit :=
  λ c,
    let '(r, c') :=
      try_catch
        (setIsLoading true ;;
         let* sessionData := storage_get in
         if complete_session sessionData then
           let* userData := getUser s (prop (js "userId") sessionData) in
           setUser (Some userData)
         else ret tt)
        (λ _, storage_remove ;; ret tt) c in
    (r, (setIsLoading false c').2).

(** The provider's state before the effect runs. *)
Definition initialAuth (session : Persisted) : AuthCtx :=
  {| ctx_user := None; isLoading := true; auth_session := session |}.

(** What [storage.get] hands to [initializeAuth] for a persisted record:
    [null] when nothing or an empty text is stored or the text does not
    parse, the parsed value otherwise. *)
Definition session_value (session : Persisted) : json :=
  match session with
  | Text raw (Some v) => if truthy raw then v else JNull
  | _ => JNull
  end.

(** The stored user a session value refers to, if any. *)
Definition session_user (s : Store) (sessionData : json) : option User :=
  match prop (js "userId") sessionData with
  | Some (JStr name) => user_named name (users s)
  | _ => None
  end.

(** ** The operations that write the product table

    Each constructor is one call as the user interface issues it:
    [api.createProduct] from the product form, [api.updateProduct] from
    [handleUpdate] (with the form's four fields), [api.deleteProduct],
    [api.purchaseProduct], [api.cleanupPurchasedProducts] and the
    dashboard's [handleDeleteContent] (with the dashboard state it runs
    in).  [exec] gives the store an operation leaves, whether it resolved
    or rejected. *)
Inductive Op :=
  | CreateListing (now : Z) (uuid t d : jsstring) (pr : Z) (img a : jsstring)
  | UpdateListing (pid t d : jsstring) (pr : Z) (img uname : jsstring)
  | SoftDeleteListing (pid uname : jsstring)
  | Purchase (now : Z) (pid uname : jsstring)
  | SweepExpiredSales (now : Z)
  | AdminDeleteContent (user : option PublicUser) (d : Dashboard)
                       (report : Report).

Definition exec (o : Op) (s : Store) : Store :=
  match o with
  | CreateListing now uuid t d pr img a =>
      (createProduct now uuid t d pr img a s).2
  | UpdateListing pid t d pr img uname =>
      (updateProduct pid (formPatch t d pr img) uname s).2
  | SoftDeleteListing pid uname => (deleteProduct pid uname s).2
  | Purchase now pid uname => (purchaseProduct now pid uname s).2
  | SweepExpiredSales now => (cleanupPurchasedProducts now s).2
  | AdminDeleteContent user d report =>
      store (handleDeleteContent user report {| store := s; dash := d |}).2
  end.

(** The store after a sequence of operations, first to last. *)
Definition exec_all (ops : list Op) (s : Store) : Store :=
  foldl (λ acc o, exec o acc) s ops.

(** The dashboard's own list and the shared table agree. *)
Definition in_sync (a : Admin) : Prop := d_reports (dash a) = reports (store a).

(** The product at position [i] has id [pid] and is marked deleted. *)
Definition deleted_at (ps : list Product) (i : nat) (pid : jsstring) : Prop :=
  ∃ p, ps !! i = Some p ∧ p_id p = pid ∧ isDeleted p = Some true.

(** The data-model invariant on a user row: a user who can log in has no
    ban expiry. *)
Definition user_inv (u : User) : Prop := canLogin u = true → banExpiry u = None.

(** [u'] is [u] except, possibly, for its balance. *)
Definition same_but_balance (u u' : User) : Prop :=
  username u' = username u ∧ password u' = password u ∧ bio u' = bio u
  ∧ isAdmin u' = isAdmin u ∧ canLogin u' = canLogin u
  ∧ banExpiry u' = banExpiry u.

(** [u'] is [u] except, possibly, for [canLogin] and [banExpiry]. *)
Definition same_but_ban (u u' : User) : Prop :=
  username u' = username u ∧ password u' = password u ∧ bio u' = bio u
  ∧ isAdmin u' = isAdmin u ∧ balance u' = balance u.

(** [p'] is [p] except, possibly, for [purchasedBy] and [purchasedAt]. *)
Definition same_but_sale (p p' : Product) : Prop :=
  p_id p' = p_id p ∧ title p' = title p ∧ description p' = description p
  ∧ price p' = price p ∧ imageUrl p' = imageUrl p ∧ author p' = author p
  ∧ createdAt p' = createdAt p ∧ isDeleted p' = isDeleted p.

(** [m'] is [m] except, possibly, for its content. *)
Definition same_but_content (m m' : ChatMessage) : Prop :=
  m_id m' = m_id m ∧ m_author m' = m_author m
  ∧ m_createdAt m' = m_createdAt m ∧ isPrivate m' = isPrivate m
  ∧ recipient m' = recipient m.

(** ** A small fixture

    Users, products and reports in the shape of the JSON fixtures, used to
    run the operations on concrete inputs. *)
Module Demo.
Definition alice : User :=
  {| username := js "alice"; password := js "alice-pw"; bio := None;
     isAdmin := None; canLogin := true; banExpiry := None;
     balance := 5000000 |}.
Definition bob : User :=
  {| username := js "bob"; password := js "bob-pw"; bio := None;
     isAdmin := None; canLogin := true; banExpiry := None; balance := 0 |}.
(** carol was banned at time 0 for seven days. *)
Definition carol : User :=
  {| username := js "carol"; password := js "carol-pw"; bio := None;
     isAdmin := None; canLogin := false; banExpiry := Some (7 * DAY);
     balance := 250000 |}.
Definition root : User :=
  {| username := js "root"; password := js "root-pw"; bio := None;
     isAdmin := Some true; canLogin := true; banExpiry := None;
     balance := 0 |}.

Definition listing (pid who : string) (cost : Z) : Product :=
  {| p_id := js pid; title := js "lamp"; description := js "a desk lamp";
     price := cost; imageUrl := js "https://img.example/lamp.png";
     author := js who; createdAt := 0; purchasedBy := None;
     purchasedAt := None; isDeleted := Some false |}.

Definition p1 : Product := listing "p1" "bob" 100000.
Definition p2 : Product := listing "p2" "carol" 100000.
(** p3 was sold to alice at time 1000. *)
Definition p3 : Product := set_purchase (js "alice") 1000 (listing "p3" "bob" 500).
(** p4 names an author who has no account. *)
Definition p4 : Product := listing "p4" "ghost" 50.

Definition complaint (rid who : string) (k : ReportType) : Report :=
  {| r_id := js rid; reportedUser := js who; reason := js "not as described";
     reportedBy := js "alice"; r_createdAt := 10; r_type := k;
     contentId := match k with TProduct => Some (js "p1") | _ => None end |}.

Definition store0 : Store :=
  {| users := [alice; bob; carol; root];
     products := [p1; p2; p3; p4];
     reports := [complaint "r1" "bob" TUser; complaint "r2" "carol" TUser;
                 complaint "r3" "bob" TProduct];
     messages := [] |}.

(** Persisted sessions: a good one for alice, one for a user who is gone,
    one without a token, and a text that is not JSON. *)
Definition session_of (who : string) : json :=
  JObj [(js "userId", JStr (js who)); (js "token", JStr (js "t0k3n"));
        (js "expiresAt", JNum 604800000)].
Definition good_session : Persisted :=
  Text (js "{...alice...}") (Some (session_of "alice")).
Definition stale_session : Persisted :=
  Text (js "{...dave...}") (Some (session_of "dave")).
Definition tokenless_session : Persisted :=
  Text (js "{...}") (Some (JObj [(js "userId", JStr (js "alice"))])).
Definition broken_session : Persisted := Text (js "{oops") None.

Definition root_view : option PublicUser := Some (withoutPassword root).
Definition alice_view : option PublicUser := Some (withoutPassword alice).
End Demo.

(** Two time zones: UTC, and one whose clocks go from one hour ahead of UTC
    to two hours ahead at the start of day 3 (UTC).  Local times of the
    skipped hour are read with the offset before the change. *)
Module Clock.
Definition utc : TimeZone :=
  {| offset_at_utc := λ _, 0; offset_at_local := λ _, 0 |}.
End Clock.

(** * The rest of the application

    The functions around the ones above: account management and the
    provider's wrappers (AuthContext.tsx), the product queries
    (ProductDetail.tsx, Products.tsx, Profile.tsx), the purchase button, the
    profile page's ban display (UserProfile) and the chat APIs (Chat,
    PrivateChat).  Each is one look-up, one or two checks and one write, so
    it is given as a function from the store to an answer and the store it
    leaves. *)

(** Failures of these functions, one constructor per message of the
    source. *)
Inductive Refusal :=
  | UsernameTaken          (* "id already exists" *)
  | WrongCurrentPassword   (* "current password is not correct" *)
  | NoSuchUser             (* "cannot find the user" *)
  | NoSuchMessage          (* "cannot find the message" *)
  | NoDeleteRight          (* "no permission to delete" *)
  | NoEditRight.           (* "no permission to edit" *)

Inductive reply (A : Type) :=
  | Fulfilled (a : A)
  | Refused (e : Refusal).
Arguments Fulfilled {A} a.
Arguments Refused {A} e.

Definition set_password (pw : jsstring) (u : User) : User :=
  {| username := username u; password := pw; bio := bio u;
     isAdmin := isAdmin u; canLogin := canLogin u; banExpiry := banExpiry u;
     balance := balance u |}.

Definition set_bio (b : jsstring) (u : User) : User :=
  {| username := username u; password := password u; bio := Some b;
     isAdmin := isAdmin u; canLogin := canLogin u; banExpiry := banExpiry u;
     balance := balance u |}.

(** ** AuthContext.tsx: [api.register], [api.updatePassword],
    [api.updateBio], [api.updateBalance], [api.getUser] *)

(** The row [api.register] pushes. *)
Definition newUser (uname pw bio' : jsstring) : User :=
  {| username := uname; password := pw; bio := Some bio'; isAdmin := None;
     canLogin := true; banExpiry := None; balance := 5000000 |}.

(** [usersData.users.some(u => u.username === username)] is a successful
    [find]. *)
Definition register (freshToken uname pw bio' : jsstring) (s : Store)
  : reply LoginResult * Store :=
  match find_user uname (users s) with
  | Some _ => (Refused UsernameTaken, s)
  | None =>
      (Fulfilled {| lr_user := withoutPassword (newUser uname pw bio');
                    lr_token := freshToken |},
       set_users (users s ++ [newUser uname pw bio']) s)
  end.

Definition updatePassword (uname oldPassword newPassword : jsstring)
    (s : Store) : reply PublicUser * Store :=
  match find_user uname (users s) with
  | None => (Refused NoSuchUser, s)
  | Some (userIndex, user) =>
      if bool_decide (password user ≠ oldPassword)
      then (Refused WrongCurrentPassword, s)
      else
        let updated := set_password newPassword user in
        (Fulfilled (withoutPassword updated),
         set_users (<[userIndex := updated]> (users s)) s)
  end.

Definition updateBio (uname newBio : jsstring) (s : Store)
  : reply PublicUser * Store :=
  match find_user uname (users s) with
  | None => (Refused NoSuchUser, s)
  | Some (userIndex, user) =>
      let updated := set_bio newBio user in
      (Fulfilled (withoutPassword updated),
       set_users (<[userIndex := updated]> (users s)) s)
  end.

Definition updateBalance (uname : jsstring) (newBalance : Z) (s : Store)
  : reply PublicUser * Store :=
  match find_user uname (users s) with
  | None => (Refused NoSuchUser, s)
  | Some (userIndex, user) =>
      let updated := set_balance newBalance user in
      (Fulfilled (withoutPassword updated),
       set_users (<[userIndex := updated]> (users s)) s)
  end.

(** [api.getUser(username)] for a username string. *)
Definition fetchUser (uname : jsstring) (s : Store) : reply PublicUser :=
  match user_named uname (users s) with
  | Some foundUser => Fulfilled (withoutPassword foundUser)
  | None => Refused NoSuchUser
  end.

(** ** AuthContext.tsx: the provider's [logout], [refreshUser] and
    [updateBalance]

    The provider state sits next to the store. *)
Record App := mkApp {
  db : Store;
  auth : AuthCtx
}.

Definition with_auth (f : AuthCtx → AuthCtx) (a : App) : App :=
  {| db := db a; auth := f (auth a) |}.

Definition logout : M AuthCtx unit :=
  λ c,
    let '(r, c') :=
      try_catch
        (setIsLoading true ;; storage_remove ;; setUser None)
        (λ _, ret tt) c in
    (r, (setIsLoading false c').2).

Definition refreshUser (a : App) : App :=
  match ctx_user (auth a) with
  | None => a
  | Some user =>
      let a1 := with_auth (λ c, (setIsLoading true c).2) a in
      let a2 :=
        match fetchUser (pu_username user) (db a1) with
        | Fulfilled updatedUser =>
            with_auth (λ c, (setUser (Some updatedUser) c).2) a1
        | Refused _ => a1
        end in
      with_auth (λ c, (setIsLoading false c).2) a2
  end.

(** The provider's [updateBalance(newBalance)]: no user, or a negative
    amount, and nothing is written. *)
Definition ctx_updateBalance (newBalance : Z) (a : App) : App :=
  match ctx_user (auth a) with
  | None => a
  | Some user =>
      let a1 := with_auth (λ c, (setIsLoading true c).2) a in
      let a2 :=
        if newBalance <? 0 then a1 else
        match updateBalance (pu_username user) newBalance (db a1) with
        | (Fulfilled updatedUser, s') =>
            {| db := s'; auth := (setUser (Some updatedUser) (auth a1)).2 |}
        | (Refused _, s') => {| db := s'; auth := auth a1 |}
        end in
      with_auth (λ c, (setIsLoading false c).2) a2
  end.

(** ** ProductDetail.tsx: [api.getProduct] and [handlePurchase]

    The page keeps the product on display, the two-step purchase flag and
    its own loading flag. *)
Definition getProduct (productId : jsstring) (s : Store) : result Product :=
  match find_product productId (products s) with
  | Some (_, product) => Resolve product
  | None => Reject ProductNotFound
  end.

Record DetailPage := mkDetailPage {
  shown : option Product;
  confirmPurchase : bool;
  page_loading : bool
}.

(** A click on the purchase button of the page for product [pid]. *)
Definition handlePurchase (now : Z) (pid : jsstring)
    (st : App * DetailPage) : App * DetailPage :=
  let '(a, page) := st in
  match ctx_user (auth a) with
  | None => st
  | Some user =>
      if negb (confirmPurchase page) then
        (a, {| shown := shown page; confirmPurchase := true;
               page_loading := page_loading page |})
      else
        match purchaseProduct now pid (pu_username user) (db a) with
        | (Resolve r, s') =>
            let a1 := {| db := s'; auth := auth a |} in
            let a2 := ctx_updateBalance (buyerBalance r) a1 in
            let a3 := refreshUser a2 in
            (a3, {| shown := Some (pr_product r); confirmPurchase := false;
                    page_loading := false |})
        | (Reject _, s') =>
            ({| db := s'; auth := auth a |},
             {| shown := shown page; confirmPurchase := false;
                page_loading := false |})
        end
  end.

(** ** Products.tsx and Profile.tsx: the product queries *)

(** [api.getProducts]: what is not deleted, newest first. *)
Definition getProducts (s : Store) : list Product :=
  reverse (filter (λ p, truthy_flag (isDeleted p) = false) (products s)).

(** [api.getUserPurchases(username)] *)
Definition getUserPurchases (uname : jsstring) (s : Store) : list Product :=
  filter (λ p, purchasedBy p = Some uname) (products s).

(** [api.getUserProducts(username)] *)
Definition getUserProducts (uname : jsstring) (s : Store) : list Product :=
  filter (λ p, author p = uname) (products s).

(** The product at position [i] has id [pid] and was sold to [buyer]. *)
Definition sold_at (ps : list Product) (i : nat) (pid buyer : jsstring)
  : Prop :=
  ∃ p, ps !! i = Some p ∧ p_id p = pid ∧ purchasedBy p = Some buyer.

(** ** UserProfile: the ban badge

    [loadUserData] shows the user as banned when
    [userData.banExpiry && new Date(userData.banExpiry) > new Date()]. *)
Definition showsBanned (u : User) (now : Z) : bool :=
  match banExpiry u with
  | Some expiry => now <? expiry
  | None => false
  end.

(** ** Everything that writes user rows

    One constructor per call; [account_step] gives the store it leaves. *)
Inductive AccountOp :=
  | DoRegister (tok uname pw bio' : jsstring)
  | DoLogin (now : Z) (tok uname pw : jsstring)
  | DoUpdatePassword (uname old new : jsstring)
  | DoUpdateBio (uname bio' : jsstring)
  | DoUpdateBalance (uname : jsstring) (amount : Z)
  | DoBan (tz : TimeZone) (now : Z) (uname : jsstring) (days : option Z)
          (admin : jsstring)
  | DoUnban (uname admin : jsstring)
  | DoPurchase (now : Z) (pid uname : jsstring)
  | DoDashboardBan (tz : TimeZone) (now : Z) (user : option PublicUser)
                   (d : Dashboard) (uname : jsstring)
  | DoDashboardUnban (user : option PublicUser) (d : Dashboard)
                     (uname : jsstring).

Definition account_step (o : AccountOp) (s : Store) : Store :=
  match o with
  | DoRegister tok uname pw bio' => (register tok uname pw bio' s).2
  | DoLogin now tok uname pw => (login now tok uname pw s).2
  | DoUpdatePassword uname old new => (updatePassword uname old new s).2
  | DoUpdateBio uname bio' => (updateBio uname bio' s).2
  | DoUpdateBalance uname amount => (updateBalance uname amount s).2
  | DoBan tz now uname days admin => (banUser tz now uname days admin s).2
  | DoUnban uname admin => (unbanUser uname admin s).2
  | DoPurchase now pid uname => (purchaseProduct now pid uname s).2
  | DoDashboardBan tz now user d uname =>
      store (handleBanUser tz now user uname {| store := s; dash := d |}).2
  | DoDashboardUnban user d uname =>
      store (handleUnbanUser user uname {| store := s; dash := d |}).2
  end.

Definition account_steps (ops : list AccountOp) (s : Store) : Store :=
  foldl (λ acc o, account_step o acc) s ops.

(** Same names and same admin flags, row by row. *)
Definition same_accounts (us us' : list User) : Prop :=
  username <$> us' = username <$> us ∧ isAdmin <$> us' = isAdmin <$> us.

(** The sum of all stored balances. *)
Definition total_balance (us : list User) : Z :=
  foldr (λ u acc, balance u + acc) 0 us.

(** ** Chat and PrivateChat: the message APIs *)

Definition set_content (c : jsstring) (m : ChatMessage) : ChatMessage :=
  {| m_id := m_id m; content := c; m_author := m_author m;
     m_createdAt := m_createdAt m; isPrivate := isPrivate m;
     recipient := recipient m |}.

Definition find_message (mid : jsstring) (ms : list ChatMessage)
  : option (nat * ChatMessage) :=
  list_find (λ m, m_id m = mid) ms.

(** PrivateChat: [api.getPrivateMessages(currentUser, otherUser)] *)
Definition getPrivateMessages (currentUser otherUser : jsstring) (s : Store)
  : list ChatMessage :=
  filter (λ msg,
            truthy_flag (isPrivate msg) = true
            ∧ ((m_author msg = currentUser ∧ recipient msg = Some otherUser)
               ∨ (m_author msg = otherUser
                  ∧ recipient msg = Some currentUser)))
         (messages s).

(** [api.sendMessage(message)] of both pages. *)
Definition sendMessage (message : ChatMessage) (s : Store) : Store :=
  set_messages (messages s ++ [message]) s.

(** PrivateChat: [api.deleteMessage(id, username)] *)
Definition deleteMessage (mid uname : jsstring) (s : Store)
  : reply unit * Store :=
  match find_message mid (messages s) with
  | None => (Refused NoSuchMessage, s)
  | Some (_, message) =>
      if bool_decide (m_author message ≠ uname) then (Refused NoDeleteRight, s)
      else
        (Fulfilled tt,
         set_messages (filter (λ msg, m_id msg ≠ mid) (messages s)) s)
  end.

(** Chat: [api.deleteMessage(id, username, isAdmin)] *)
Definition deleteMessage_public (mid uname : jsstring) (admin : bool)
    (s : Store) : reply unit * Store :=
  match find_message mid (messages s) with
  | None => (Refused NoSuchMessage, s)
  | Some (_, message) =>
      if bool_decide (m_author message ≠ uname) && negb admin
      then (Refused NoDeleteRight, s)
      else
        (Fulfilled tt,
         set_messages (filter (λ msg, m_id msg ≠ mid) (messages s)) s)
  end.

(** PrivateChat: [api.editMessage]; every message with the id is replaced
    by the updated copy of the first one. *)
Definition editMessage (mid newContent uname : jsstring) (s : Store)
  : reply ChatMessage * Store :=
  match find_message mid (messages s) with
  | None => (Refused NoSuchMessage, s)
  | Some (_, message) =>
      if bool_decide (m_author message ≠ uname) then (Refused NoEditRight, s)
      else
        let updatedMessage := set_content newContent message in
        (Fulfilled updatedMessage,
         set_messages
           ((λ msg, if decide (m_id msg = mid) then updatedMessage else msg)
              <$> messages s) s)
  end.

(** Chat: [api.editMessage]; every message with the id gets the new
    content. *)
Definition editMessage_public (mid newContent uname : jsstring) (s : Store)
  : reply ChatMessage * Store :=
  match find_message mid (messages s) with
  | None => (Refused NoSuchMessage, s)
  | Some (_, message) =>
      if bool_decide (m_author message ≠ uname) then (Refused NoEditRight, s)
      else
        (Fulfilled (set_content newContent message),
         set_messages
           ((λ msg, if decide (m_id msg = mid)
                    then set_content newContent msg else msg)
              <$> messages s) s)
  end.

(** More of the fixture: a private conversation and a public message. *)
Module Talk.
Definition note (mid from to : string) (text : string) : ChatMessage :=
  {| m_id := js mid; content := js text; m_author := js from;
     m_createdAt := 5; isPrivate := Some true; recipient := Some (js to) |}.
Definition shout (mid from : string) (text : string) : ChatMessage :=
  {| m_id := js mid; content := js text; m_author := js from;
     m_createdAt := 6; isPrivate := Some false; recipient := None |}.
Definition store1 : Store :=
  set_messages
    [note "m1" "alice" "bob" "hello"; shout "m2" "carol" "hi all";
     note "m3" "bob" "alice" "hello back"; note "m4" "carol" "bob" "psst"]
    Demo.store0.
End Talk.

(** * Properties *)

(** ** Lookups under in-place updates *)

Section FindAlter.
Context {A : Type} (key : A → jsstring) (f : A → A).
Hypothesis f_key : ∀ x, key (f x) = key x.

Lemma list_find_key_alter (name : jsstring) (l : list A) (i : nat) :
  list_find (λ x, key x = name) (alter f i l) =
  (λ kx : nat * A,
     (kx.1, if decide (kx.1 = i) then f kx.2 else kx.2))
    <$> list_find (λ x, key x = name) l.
Proof.
  revert i. induction l as [|x l IH]; intros i; [done|].
  destruct i as [|i]; csimpl.
  - rewrite f_key. destruct (decide (key x = name)); [done|].
    destruct (list_find _ l) as [[k v]|]; done.
  - destruct (decide (key x = name)); [done|].
    rewrite IH. destruct (list_find _ l) as [[k v]|]; simpl; [|done].
    do 2 f_equal. destruct (decide (k = i)), (decide (S k = S i)); done || lia.
Qed.
End FindAlter.

Lemma find_user_alter (f : User → User) (name : jsstring) (us : list User)
    (i : nat) :
  (∀ u, username (f u) = username u) →
  find_user name (alter f i us) =
  (λ ku : nat * User,
     (ku.1, if decide (ku.1 = i) then f ku.2 else ku.2)) <$> find_user name us.
Proof. intros Hf. by apply (list_find_key_alter username). Qed.

Lemma find_user_lookup (name : jsstring) (us : list User) (i : nat) (u : User) :
  find_user name us = Some (i, u) → us !! i = Some u ∧ username u = name.
Proof. intros H. apply list_find_Some in H. tauto. Qed.

Lemma find_product_lookup (pid : jsstring) (ps : list Product) i p :
  find_product pid ps = Some (i, p) → ps !! i = Some p ∧ p_id p = pid.
Proof. intros H. apply list_find_Some in H. tauto. Qed.

Lemma insert_as_alter {A} (f : A → A) (l : list A) (i : nat) (x : A) :
  l !! i = Some x → <[i := f x]> l = alter f i l.
Proof.
  revert i. induction l as [|y l IH]; intros [|i] H; simplify_eq/=; [done|].
  f_equal. by apply IH.
Qed.

Lemma set_balance_username b u : username (set_balance b u) = username u.
Proof. done. Qed.

(** ** Numbers *)

Lemma safe_integer_isDouble (z : Z) : isSafeInteger z → isDouble z.
Proof.
  unfold isSafeInteger, isDouble, roundToDouble. intros H. split.
  - destruct (Z.ltb_spec (Z.abs z) (2 ^ 53)); [done|lia].
  - assert (2 ^ 53 < 2 ^ 1024) by (by apply Z.pow_lt_mono_r). lia.
Qed.

Lemma num_sub_exact (x y : Z) : isDouble (x - y) → num_sub x y = x - y.
Proof. by intros [? _]. Qed.

Lemma num_add_exact (x y : Z) : isDouble (x + y) → num_add x y = x + y.
Proof. by intros [? _]. Qed.

(** A debit followed by a credit of the same amount gives the balance
    back when the balance in between is a double. *)
Lemma num_sub_add (b d : Z) :
  isDouble b → isDouble (b - d) → num_add (num_sub b d) d = b.
Proof.
  intros Hb Hd. rewrite (num_sub_exact _ _ Hd). unfold num_add.
  replace (b - d + d) with b by lia. apply Hb.
Qed.

Lemma set_balance_undo (u : User) (d : Z) :
  isDouble (balance u) → isDouble (balance u - d) →
  set_balance (num_add (balance (set_balance (num_sub (balance u) d) u)) d)
              (set_balance (num_sub (balance u) d) u) = u.
Proof.
  intros Hb Hd. destruct u; unfold set_balance; simpl in *. f_equal.
  by apply num_sub_add.
Qed.

(** ** Running the monad *)

Ltac run :=
  unfold liftBan, bind, gets, modify, ret, reject, try_catch; cbn beta iota.

(** ** Purchase *)

Section Purchase.
Variables (now : Z) (pid : jsstring) (s : Store).
Variables (idx : nat) (p : Product).
Hypothesis Hprod : find_product pid (products s) = Some (idx, p).

Lemma purchase_run (buyerName : jsstring) (i : nat) (b : User) :
  truthy_opt (purchasedBy p) = false →
  find_user buyerName (users s) = Some (i, b) →
  price p ≤ balance b →
  let debit := λ u, set_balance (num_sub (balance u) (price p)) u in
  let credit := λ u, set_balance (num_add (balance u) (price p)) u in
  let us1 := alter debit i (users s) in
  let us2 := match userIndex_of (author p) us1 with
             | Some j => alter credit j us1
             | None => us1
             end in
  purchaseProduct now pid buyerName s =
    (Resolve {| pr_product := set_purchase buyerName now p;
                buyerBalance := default 0 (balance <$> us2 !! i) |},
     set_products (<[idx := set_purchase buyerName now p]> (products s))
                  (set_users us2 s)).
Proof.
  intros Hunsold Hbuyer Hfunds debit credit us1 us2.
  unfold purchaseProduct. run. rewrite Hprod, Hunsold.
  unfold user_named, userIndex_of. rewrite Hbuyer. cbn.
  destruct (Z.ltb_spec (balance b) (price p)) as [?|_]; [lia|].
  rewrite Hbuyer. cbn. fold debit. fold us1.
  unfold us2, userIndex_of, find_user.
  destruct (list_find _ us1) as [[j a]|]; cbn; done.
Qed.
End Purchase.

Lemma find_user_alter_same (f : User → User) name us i b :
  (∀ u, username (f u) = username u) →
  find_user name us = Some (i, b) →
  find_user name (alter f i us) = Some (i, f b).
Proof.
  intros Hf H. rewrite find_user_alter by done. rewrite H. simpl.
  by rewrite decide_True.
Qed.

Lemma find_user_alter_other (f : User → User) name us i b :
  (∀ u, username (f u) = username u) →
  us !! i = Some b → username b ≠ name →
  find_user name (alter f i us) = find_user name us.
Proof.
  intros Hf Hi Hne. rewrite find_user_alter by done.
  destruct (find_user name us) as [[k u]|] eqn:Hk; [|done]. simpl.
  destruct (decide (k = i)) as [->|]; [|done].
  apply find_user_lookup in Hk as [Hk Hu]. congruence.
Qed.

Lemma set_users_same (s : Store) : set_users (users s) s = s.
Proof. by destruct s. Qed.

(** What a purchase that gets past its checks does to the product table and
    leaves alone: the product row is the old one with the buyer and the
    time stamped on it, every other product row, the reports and the
    messages are as they were. *)
Lemma purchase_stamps (now : Z) (pid buyerName : jsstring) (s : Store)
    (idx : nat) (p : Product) (i : nat) (b : User) :
  find_product pid (products s) = Some (idx, p) →
  truthy_opt (purchasedBy p) = false →
  find_user buyerName (users s) = Some (i, b) →
  price p ≤ balance b →
  let debit := λ u, set_balance (num_sub (balance u) (price p)) u in
  let credit := λ u, set_balance (num_add (balance u) (price p)) u in
  let us1 := alter debit i (users s) in
  let us2 := match userIndex_of (author p) us1 with
             | Some j => alter credit j us1
             | None => us1
             end in
  ∃ r s',
    purchaseProduct now pid buyerName s = (Resolve r, s')
    ∧ users s' = us2
    ∧ buyerBalance r = default 0 (balance <$> us2 !! i)
    ∧ purchasedBy (pr_product r) = Some buyerName
    ∧ purchasedAt (pr_product r) = Some now
    ∧ same_but_sale p (pr_product r)
    ∧ products s' !! idx = Some (pr_product r)
    ∧ length (products s') = length (products s)
    ∧ (∀ k, k ≠ idx → products s' !! k = products s !! k)
    ∧ reports s' = reports s ∧ messages s' = messages s.
Proof.
  intros Hprod Hunsold Hbuyer Hfunds debit credit us1 us2.
  eexists _, _. split.
  { exact (purchase_run now pid s idx p Hprod buyerName i b Hunsold Hbuyer
             Hfunds). }
  destruct (find_product_lookup _ _ _ _ Hprod) as [Hidx _].
  simpl. split_and!; try done.
  - apply list_lookup_insert_eq. by eapply lookup_lt_Some.
  - by rewrite length_insert.
  - intros k Hk. by rewrite list_lookup_insert_ne.
Qed.

(** C1 (as amended): a purchase by a buyer other than the author, of an
    unsold product the buyer can afford, with new balances that are doubles
    (as all integers of magnitude up to 2^53 are), resolves with the
    product and the buyer's new balance.  The returned product has
    purchasedBy = the buyer and purchasedAt = the purchase time and is
    otherwise the old product; it is stored at the product's position and no
    other product row changes.  The buyer's stored balance is the old one
    minus the price; the author's stored balance is the old one plus the
    price when the author has an account, otherwise only the buyer's row
    changes; no other field of these rows and no other user row changes. *)
Theorem purchase_transfers_price (now : Z) (pid buyerName : jsstring)
    (s : Store) (idx : nat) (p : Product) (i : nat) (b : User) :
  find_product pid (products s) = Some (idx, p) →
  purchasedBy p = None →
  find_user buyerName (users s) = Some (i, b) →
  price p ≤ balance b →
  buyerName ≠ author p →
  isDouble (balance b - price p) →
  (∀ j a, find_user (author p) (users s) = Some (j, a) →
          isDouble (balance a + price p)) →
  ∃ r s' b',
    purchaseProduct now pid buyerName s = (Resolve r, s')
    ∧ buyerBalance r = balance b - price p
    ∧ purchasedBy (pr_product r) = Some buyerName
    ∧ purchasedAt (pr_product r) = Some now
    ∧ same_but_sale p (pr_product r)
    ∧ products s' !! idx = Some (pr_product r)
    ∧ length (products s') = length (products s)
    ∧ (∀ k, k ≠ idx → products s' !! k = products s !! k)
    ∧ users s' !! i = Some b'
    ∧ user_named buyerName (users s') = Some b'
    ∧ balance b' = balance b - price p
    ∧ same_but_balance b b'
    ∧ length (users s') = length (users s)
    ∧ match find_user (author p) (users s) with
      | Some (j, a) =>
          ∃ a', users s' !! j = Some a'
                ∧ user_named (author p) (users s') = Some a'
                ∧ balance a' = balance a + price p
                ∧ same_but_balance a a'
                ∧ ∀ k, k ≠ i → k ≠ j → users s' !! k = users s !! k
      | None =>
          user_named (author p) (users s') = None
          ∧ ∀ k, k ≠ i → users s' !! k = users s !! k
      end
    ∧ (∀ n, n ≠ buyerName → n ≠ author p →
         user_named n (users s') = user_named n (users s))
    ∧ reports s' = reports s ∧ messages s' = messages s.
Proof.
  intros Hprod Hunsold Hbuyer Hfunds Hother Hexb Hexa.
  assert (Hsold : truthy_opt (purchasedBy p) = false) by by rewrite Hunsold.
  destruct (purchase_stamps now pid buyerName s idx p i b Hprod Hsold Hbuyer
              Hfunds)
    as (r & s' & Hrun & Hus & Hnew & Hby & Hat & Hsame & Hrow & Hlen & Hrest
        & Hrep & Hmsg).
  cbv zeta in Hus, Hnew.
  set (debit := λ u, set_balance (num_sub (balance u) (price p)) u) in *.
  set (credit := λ u, set_balance (num_add (balance u) (price p)) u) in *.
  destruct (find_user_lookup _ _ _ _ Hbuyer) as [Hi Hb].
  assert (Hdebit : ∀ u, username (debit u) = username u) by done.
  assert (Hcredit : ∀ u, username (credit u) = username u) by done.
  assert (Hseller : find_user (author p) (alter debit i (users s))
                    = find_user (author p) (users s)).
  { apply find_user_alter_other with b; [done|done|congruence]. }
  assert (Hi1 : alter debit i (users s) !! i = Some (debit b)).
  { by rewrite list_lookup_alter_eq, Hi. }
  assert (Hbal : balance (debit b) = balance b - price p) by apply Hexb.
  unfold userIndex_of in Hus, Hnew. rewrite Hseller in Hus, Hnew.
  exists r, s', (debit b). rewrite Hus. unfold user_named.
  destruct (find_user (author p) (users s)) as [[j a]|] eqn:Ha;
    simpl in Hus, Hnew |- *.
  - destruct (find_user_lookup _ _ _ _ Ha) as [Hj Hna].
    assert (Hij : i ≠ j) by (intros ->; congruence).
    assert (Hj1 : alter debit i (users s) !! j = Some a).
    { by rewrite list_lookup_alter_ne. }
    assert (Hrow_i : alter credit j (alter debit i (users s)) !! i
                     = Some (debit b)).
    { by rewrite list_lookup_alter_ne. }
    rewrite Hrow_i in Hnew. simpl in Hnew.
    split_and!; try done; try congruence.
    + rewrite Hnew. apply Hexb.
    + rewrite (find_user_alter_other credit _ _ j a); [|done|done|congruence].
      by rewrite (find_user_alter_same debit _ _ i b).
    + by rewrite !length_alter.
    + exists (credit a). split_and!; try done.
      * by rewrite list_lookup_alter_eq, Hj1.
      * by rewrite (find_user_alter_same credit _ _ j a Hcredit Hseller).
      * apply (Hexa j a eq_refl).
      * intros k Hki Hkj. by rewrite !list_lookup_alter_ne.
    + intros n Hn1 Hn2.
      rewrite (find_user_alter_other credit _ _ j a); [|done|done|congruence].
      rewrite (find_user_alter_other debit _ _ i b); [done|done|done|congruence].
  - rewrite Hi1 in Hnew. simpl in Hnew.
    split_and!; try done; try congruence.
    + rewrite Hnew. apply Hexb.
    + by rewrite (find_user_alter_same debit _ _ i b).
    + by rewrite length_alter.
    + by rewrite Hseller.
    + intros k Hk. by rewrite list_lookup_alter_ne.
    + intros n Hn1 Hn2.
      rewrite (find_user_alter_other debit _ _ i b); [done|done|done|congruence].
Qed.

(** Witness for C1: alice buys bob's lamp p1 at time 2000. *)
Lemma purchase_transfers_price_witness :
  ∃ r s',
    purchaseProduct 2000 (js "p1") (js "alice") Demo.store0 = (Resolve r, s')
    ∧ buyerBalance r = 4900000
    ∧ pr_product r
      = {| p_id := js "p1"; title := js "lamp"; description := js "a desk lamp";
           price := 100000; imageUrl := js "https://img.example/lamp.png";
           author := js "bob"; createdAt := 0;
           purchasedBy := Some (js "alice"); purchasedAt := Some 2000;
           isDeleted := Some false |}
    ∧ products s' !! 0%nat = Some (pr_product r)
    ∧ balance <$> user_named (js "alice") (users s') = Some 4900000
    ∧ balance <$> user_named (js "bob") (users s') = Some 100000.
Proof.
  destruct (purchase_transfers_price 2000 (js "p1") (js "alice") Demo.store0
              0 Demo.p1 0 Demo.alice)
    as (r & s' & b' & Hrun & Hnew & Hby & Hat & Hsame & Hrow & _ & _ & _
        & Hbuyer & Hbal & _ & _ & Hseller & _);
    [reflexivity | reflexivity | reflexivity | vm_compute; discriminate
    | vm_compute; discriminate | split; reflexivity
    | intros j a [= <- <-]; split; reflexivity | ].
  change (find_user (author Demo.p1) (users Demo.store0))
    with (Some (1%nat, Demo.bob)) in Hseller.
  destruct Hseller as (a' & _ & Hnamed & Hcredit & _).
  exists r, s'. split_and!.
  - exact Hrun.
  - exact Hnew.
  - destruct Hsame as (? & ? & ? & ? & ? & ? & ? & ?).
    destruct (pr_product r); simpl in *. by subst.
  - exact Hrow.
  - rewrite Hbuyer. simpl. by rewrite Hbal.
  - change (author Demo.p1) with (js "bob") in Hnamed.
    rewrite Hnamed. simpl. by rewrite Hcredit.
Defined.

(** C1 (as stated) fails when the buyer is the author: carol buys her own
    product p2 for 100000 and her stored balance is not 100000 lower.  It
    also fails when a new balance is not a double: with the seller at 2^53
    and a price of 1, the buyer pays and the seller's stored balance stays
    at 2^53. *)
Lemma purchase_own_listing_keeps_balance :
  (find_product (js "p2") (products Demo.store0) = Some (1%nat, Demo.p2)
   ∧ purchasedBy Demo.p2 = None
   ∧ find_user (js "carol") (users Demo.store0) = Some (2%nat, Demo.carol)
   ∧ price Demo.p2 ≤ balance Demo.carol
   ∧ ∃ r s',
       purchaseProduct 2000 (js "p2") (js "carol") Demo.store0 = (Resolve r, s')
       ∧ user_named (js "carol") (users s')
         ≠ Some (set_balance (balance Demo.carol - price Demo.p2) Demo.carol)
       ∧ balance <$> user_named (js "carol") (users s') = Some 250000)
  ∧ (let seller := set_balance 9007199254740992 Demo.bob in
     let s := set_users [Demo.alice; seller] Demo.store0 in
     let cheap := Demo.listing "p5" "bob" 1 in
     let s := set_products [cheap] s in
     find_product (js "p5") (products s) = Some (0%nat, cheap)
     ∧ purchasedBy cheap = None
     ∧ find_user (js "alice") (users s) = Some (0%nat, Demo.alice)
     ∧ price cheap ≤ balance Demo.alice
     ∧ user_named (author cheap) (users s) = Some seller
     ∧ ∃ r s',
         purchaseProduct 2000 (js "p5") (js "alice") s = (Resolve r, s')
         ∧ balance <$> user_named (js "alice") (users s') = Some 4999999
         ∧ balance <$> user_named (js "bob") (users s')
           = Some 9007199254740992
         ∧ balance seller + price cheap = 9007199254740993).
Proof.
  split.
  - split_and!; try reflexivity; [vm_compute; discriminate|].
    eexists _, _. split; [vm_compute; reflexivity|].
    split; [vm_compute; discriminate | vm_compute; reflexivity].
  - split_and!; try reflexivity; [vm_compute; discriminate|].
    eexists _, _. split; [vm_compute; reflexivity|].
    split_and!; vm_compute; reflexivity.
Qed.

Lemma truthy_opt_name (o : option jsstring) (n : jsstring) :
  o = Some n → n ≠ [] → truthy_opt o = true.
Proof. intros -> Hn. by destruct n. Qed.

(** A rejected purchase has written nothing. *)
Lemma purchase_reject_unchanged (now : Z) (pid buyerName : jsstring)
    (s s' : Store) (e : Error) :
  purchaseProduct now pid buyerName s = (Reject e, s') → s' = s.
Proof.
  destruct (find_product pid (products s)) as [[idx p]|] eqn:Hprod.
  2: { unfold purchaseProduct. run. rewrite Hprod. by intros [= _ <-]. }
  destruct (truthy_opt (purchasedBy p)) eqn:Hsold.
  { unfold purchaseProduct. run. rewrite Hprod, Hsold. by intros [= _ <-]. }
  destruct (find_user buyerName (users s)) as [[i b]|] eqn:Hbuyer.
  2: { unfold purchaseProduct. run. rewrite Hprod, Hsold.
       unfold user_named. rewrite Hbuyer. cbn. by intros [= _ <-]. }
  destruct (Z.ltb_spec (balance b) (price p)) as [Hlow|Hfunds].
  { unfold purchaseProduct. run. rewrite Hprod, Hsold.
    unfold user_named. rewrite Hbuyer. cbn.
    destruct (Z.ltb_spec (balance b) (price p)); [|lia]. by intros [= _ <-]. }
  by rewrite
    (purchase_run now pid s idx p Hprod buyerName i b Hsold Hbuyer Hfunds).
Qed.

(** C2: purchase rejects with "product not found" when no product has the
    id, with "already sold" when the product's purchasedBy holds a buyer's
    name, and with "insufficient balance" when the product is unsold and the
    buyer's balance is below its price; whenever it rejects, the store it
    leaves is the store it was given. *)
Theorem purchase_failures (now : Z) (pid buyerName : jsstring) (s : Store) :
  (find_product pid (products s) = None →
     purchaseProduct now pid buyerName s = (Reject ProductNotFound, s))
  ∧ (∀ idx p soldTo,
       find_product pid (products s) = Some (idx, p) →
       purchasedBy p = Some soldTo → soldTo ≠ [] →
       purchaseProduct now pid buyerName s = (Reject AlreadySold, s))
  ∧ (∀ idx p i b,
       find_product pid (products s) = Some (idx, p) →
       purchasedBy p = None →
       find_user buyerName (users s) = Some (i, b) →
       balance b < price p →
       purchaseProduct now pid buyerName s = (Reject InsufficientBalance, s))
  ∧ (∀ e s', purchaseProduct now pid buyerName s = (Reject e, s') → s' = s).
Proof.
  split_and!.
  - intros Hprod. unfold purchaseProduct. run. by rewrite Hprod.
  - intros idx p soldTo Hprod Hsold Hname.
    unfold purchaseProduct. run.
    by rewrite Hprod, (truthy_opt_name _ _ Hsold Hname).
  - intros idx p i b Hprod Hunsold Hbuyer Hlow.
    unfold purchaseProduct. run. rewrite Hprod, Hunsold. cbn.
    unfold user_named. rewrite Hbuyer. cbn.
    destruct (Z.ltb_spec (balance b) (price p)); [done|lia].
  - intros e s'. apply purchase_reject_unchanged.
Qed.

(** Witness for C2: an unknown id, the sold product p3, and bob (balance 0)
    reaching for p2. *)
Lemma purchase_failures_witness :
  purchaseProduct 2000 (js "nope") (js "alice") Demo.store0
    = (Reject ProductNotFound, Demo.store0)
  ∧ purchaseProduct 2000 (js "p3") (js "carol") Demo.store0
    = (Reject AlreadySold, Demo.store0)
  ∧ purchaseProduct 2000 (js "p2") (js "bob") Demo.store0
    = (Reject InsufficientBalance, Demo.store0).
Proof.
  split_and!.
  - apply (purchase_failures 2000 (js "nope") (js "alice") Demo.store0).
    reflexivity.
  - apply (purchase_failures 2000 (js "p3") (js "carol") Demo.store0)
      with (idx := 2%nat) (p := Demo.p3) (soldTo := js "alice");
      [reflexivity | reflexivity | vm_compute; discriminate].
  - apply (purchase_failures 2000 (js "p2") (js "bob") Demo.store0)
      with (idx := 1%nat) (p := Demo.p2) (i := 1%nat) (b := Demo.bob);
      [reflexivity | reflexivity | reflexivity | vm_compute; reflexivity].
Defined.

(** C9 (as amended): the author may buy the author's own unsold product.
    When the author's balance and the balance less the price are doubles
    (as all integers of magnitude up to 2^53 are), the call resolves,
    returns the product with purchasedBy = the author and purchasedAt = the
    purchase time (otherwise the old product) and stores it at the product's
    position, reports the author's old balance as the new one, and leaves
    the user table, every other product row, the reports and the messages
    exactly as they were. *)
Theorem purchase_by_author (now : Z) (pid : jsstring) (s : Store)
    (idx : nat) (p : Product) (i : nat) (a : User) :
  find_product pid (products s) = Some (idx, p) →
  purchasedBy p = None →
  find_user (author p) (users s) = Some (i, a) →
  price p ≤ balance a →
  isDouble (balance a) → isDouble (balance a - price p) →
  ∃ r s',
    purchaseProduct now pid (author p) s = (Resolve r, s')
    ∧ buyerBalance r = balance a
    ∧ users s' = users s
    ∧ purchasedBy (pr_product r) = Some (author p)
    ∧ purchasedAt (pr_product r) = Some now
    ∧ same_but_sale p (pr_product r)
    ∧ products s' !! idx = Some (pr_product r)
    ∧ length (products s') = length (products s)
    ∧ (∀ k, k ≠ idx → products s' !! k = products s !! k)
    ∧ reports s' = reports s ∧ messages s' = messages s.
Proof.
  intros Hprod Hunsold Hauthor Hfunds Hexa Hexd.
  assert (Hsold : truthy_opt (purchasedBy p) = false) by by rewrite Hunsold.
  destruct (purchase_stamps now pid (author p) s idx p i a Hprod Hsold Hauthor
              Hfunds)
    as (r & s' & Hrun & Hus & Hnew & Hby & Hat & Hsame & Hrow & Hlen & Hrest
        & Hrep & Hmsg).
  cbv zeta in Hus, Hnew. unfold userIndex_of in Hus, Hnew.
  rewrite (find_user_alter_same _ _ _ i a) in Hus, Hnew by done.
  simpl in Hus, Hnew. rewrite list_alter_alter_eq in Hus, Hnew.
  destruct (find_user_lookup _ _ _ _ Hauthor) as [Hi _].
  assert (Hback : alter
            (λ u, set_balance (num_add (balance (set_balance
                     (num_sub (balance u) (price p)) u)) (price p))
                    (set_balance (num_sub (balance u) (price p)) u))
            i (users s) = users s).
  { rewrite <- (insert_as_alter _ _ i a Hi).
    rewrite (set_balance_undo a (price p) Hexa Hexd).
    by apply list_insert_id. }
  unfold compose in Hus, Hnew. rewrite Hback in Hus, Hnew.
  rewrite Hi in Hnew. exists r, s'. split_and!; done.
Qed.

(** Witness for C9: carol buys her own product p2 at time 2000. *)
Lemma purchase_by_author_witness :
  ∃ r s',
    purchaseProduct 2000 (js "p2") (js "carol") Demo.store0 = (Resolve r, s')
    ∧ buyerBalance r = 250000
    ∧ users s' = users Demo.store0
    ∧ pr_product r
      = {| p_id := js "p2"; title := js "lamp"; description := js "a desk lamp";
           price := 100000; imageUrl := js "https://img.example/lamp.png";
           author := js "carol"; createdAt := 0;
           purchasedBy := Some (js "carol"); purchasedAt := Some 2000;
           isDeleted := Some false |}
    ∧ products s' !! 1%nat = Some (pr_product r).
Proof.
  destruct (purchase_by_author 2000 (js "p2") Demo.store0 1 Demo.p2 2
              Demo.carol)
    as (r & s' & Hrun & Hnew & Hus & Hby & Hat & Hsame & Hrow & _);
    [reflexivity | reflexivity | reflexivity | vm_compute; discriminate
    | split; reflexivity | split; reflexivity | ].
  exists r, s'. split_and!; try done.
  destruct Hsame as (? & ? & ? & ? & ? & ? & ? & ?).
  destruct (pr_product r); simpl in *. by subst.
Defined.

(** C9 (as stated) fails when the balance less the price is not a double:
    an author with balance 2^53 + 2 buys the author's own product of price
    1; the debit rounds 2^53 + 1 to 2^53, the credit rounds 2^53 + 1 to
    2^53 again, and the stored balance is 2 lower than before. *)
Lemma own_purchase_loses_to_rounding :
  let rich := set_balance 9007199254740994 Demo.bob in
  let gem := Demo.listing "p5" "bob" 1 in
  let s := set_products [gem] (set_users [Demo.alice; rich] Demo.store0) in
  find_product (js "p5") (products s) = Some (0%nat, gem)
  ∧ purchasedBy gem = None
  ∧ find_user (author gem) (users s) = Some (1%nat, rich)
  ∧ price gem ≤ balance rich
  ∧ isDouble (balance rich)
  ∧ ∃ r s',
      purchaseProduct 2000 (js "p5") (author gem) s = (Resolve r, s')
      ∧ purchasedBy (pr_product r) = Some (js "bob")
      ∧ balance <$> user_named (js "bob") (users s) = Some 9007199254740994
      ∧ balance <$> user_named (js "bob") (users s') = Some 9007199254740992
      ∧ users s' ≠ users s.
Proof.
  split_and!; try reflexivity;
    [vm_compute; discriminate | split; vm_compute; reflexivity |].
  eexists _, _. split; [vm_compute; reflexivity|].
  split_and!; try (vm_compute; reflexivity). vm_compute. discriminate.
Qed.

(** ** Login and ban *)

Lemma find_user_insert_same (f : User → User) name us i u :
  (∀ v, username (f v) = username v) →
  find_user name us = Some (i, u) →
  find_user name (<[i := f u]> us) = Some (i, f u).
Proof.
  intros Hf H. destruct (find_user_lookup _ _ _ _ H) as [Hi _].
  rewrite (insert_as_alter f) by done. by apply find_user_alter_same.
Qed.

Lemma ceil_div_spec (a b : Z) :
  0 < b → (ceil_div a b - 1) * b < a ≤ ceil_div a b * b.
Proof.
  intros Hb. unfold ceil_div.
  pose proof (Z.div_mod (- a) b ltac:(lia)) as Hdm.
  pose proof (Z.mod_pos_bound (- a) b Hb) as Hm. nia.
Qed.

Lemma isAdmin_named_spec (name : jsstring) (us : list User) :
  isAdmin_named name us = true ↔
  ∃ a, user_named name us = Some a ∧ isAdmin a = Some true.
Proof.
  unfold isAdmin_named. destruct (user_named name us) as [a|]; simpl.
  - split.
    + intros H. exists a. by destruct (isAdmin a) as [[]|].
    + intros (a' & [= <-] & Ha). by rewrite Ha.
  - split; [done|]. by intros (? & ? & ?).
Qed.

(** C3: login rejects with "invalid credentials" when the name is unknown
    or the password differs from the stored one; with a matching password,
    a user who cannot log in and whose ban expires in the future is rejected
    with the number of days remaining (the quotient of the remaining time by
    one day, rounded up) and the table is left as it was; a user whose ban
    expiry has passed is given canLogin = true and no banExpiry in the
    table (the row's other fields and every other row stay), and the call
    resolves with the generated token and the user's record: username, bio,
    isAdmin and balance as stored, canLogin true, no banExpiry, and no
    password; a user who can log in gets the stored record without the
    password and the token, with the table untouched. *)
Theorem login_outcomes (now : Z) (freshToken uname pw : jsstring) (s : Store) :
  (find_user uname (users s) = None →
     login now freshToken uname pw s = (Reject InvalidCredentials, s))
  ∧ (∀ i u,
       find_user uname (users s) = Some (i, u) → password u ≠ pw →
       login now freshToken uname pw s = (Reject InvalidCredentials, s))
  ∧ (∀ i u e,
       find_user uname (users s) = Some (i, u) → password u = pw →
       canLogin u = false → banExpiry u = Some e → now < e →
       let days := ceil_div (e - now) DAY in
       login now freshToken uname pw s = (Reject (Banned days), s)
       ∧ (days - 1) * DAY < e - now ≤ days * DAY
       ∧ canLogin <$> user_named uname (users s) = Some false)
  ∧ (∀ i u e,
       find_user uname (users s) = Some (i, u) → password u = pw →
       (canLogin u = true → banExpiry u = None) →
       banExpiry u = Some e → e ≤ now →
       ∃ s' u',
         login now freshToken uname pw s =
           (Resolve {| lr_user :=
                         {| pu_username := username u; pu_bio := bio u;
                            pu_isAdmin := isAdmin u; pu_canLogin := true;
                            pu_banExpiry := None; pu_balance := balance u |};
                       lr_token := freshToken |}, s')
         ∧ users s' !! i = Some u'
         ∧ user_named uname (users s') = Some u'
         ∧ canLogin u' = true
         ∧ banExpiry u' = None
         ∧ same_but_ban u u'
         ∧ length (users s') = length (users s)
         ∧ (∀ k, k ≠ i → users s' !! k = users s !! k)
         ∧ products s' = products s ∧ reports s' = reports s
         ∧ messages s' = messages s)
  ∧ (∀ i u,
       find_user uname (users s) = Some (i, u) → password u = pw →
       canLogin u = true →
       login now freshToken uname pw s =
         (Resolve {| lr_user :=
                       {| pu_username := username u; pu_bio := bio u;
                          pu_isAdmin := isAdmin u; pu_canLogin := true;
                          pu_banExpiry := banExpiry u;
                          pu_balance := balance u |};
                     lr_token := freshToken |}, s)).
Proof.
  split_and!.
  - intros H. unfold login. run. by rewrite H.
  - intros i u H Hpw. unfold login. run. rewrite H.
    by rewrite bool_decide_eq_false_2.
  - intros i u e H Hpw Hcan He Hfuture days. split; [|split].
    + unfold login. run. rewrite H.
      rewrite bool_decide_eq_true_2 by done. cbn.
      rewrite Hcan, He. cbn.
      destruct (Z.ltb_spec now e); [done|lia].
    + apply ceil_div_spec. done.
    + unfold user_named. by rewrite H, <- Hcan.
  - intros i u e H Hpw Hinv He Hpast.
    assert (Hcan : canLogin u = false).
    { destruct (canLogin u); [|done]. by rewrite Hinv in He. }
    destruct (find_user_lookup _ _ _ _ H) as [Hi _].
    exists (set_users (alter (set_ban true None) i (users s)) s),
      (set_ban true None u).
    split_and!; try done.
    + unfold login. run. rewrite H.
      rewrite bool_decide_eq_true_2 by done. cbn.
      rewrite Hcan, He. cbn.
      destruct (Z.ltb_spec now e); [lia|]. cbn.
      by rewrite list_lookup_alter_eq, Hi.
    + simpl. by rewrite list_lookup_alter_eq, Hi.
    + unfold user_named. simpl.
      by rewrite (find_user_alter_same (set_ban true None) _ _ i u).
    + simpl. by rewrite length_alter.
    + intros k Hk. simpl. by rewrite list_lookup_alter_ne.
  - intros i u H Hpw Hcan. unfold login. run. rewrite H.
    rewrite bool_decide_eq_true_2 by done. cbn. rewrite Hcan. cbn.
    destruct (find_user_lookup _ _ _ _ H) as [Hi _]. rewrite Hi. simpl.
    unfold withoutPassword. by rewrite Hcan.
Qed.

(** Witness for C3: carol, banned until day 7, logs in on day 1 ("6 days")
    and on day 8 (the ban is lifted); a wrong password is refused. *)
Lemma login_outcomes_witness :
  login (1 * DAY) (js "t0k3n") (js "carol") (js "guess") Demo.store0
    = (Reject InvalidCredentials, Demo.store0)
  ∧ login (1 * DAY) (js "t0k3n") (js "carol") (js "carol-pw") Demo.store0
    = (Reject (Banned 6), Demo.store0)
  ∧ ∃ s',
      login (8 * DAY) (js "t0k3n") (js "carol") (js "carol-pw") Demo.store0
      = (Resolve {| lr_user :=
                      {| pu_username := js "carol"; pu_bio := None;
                         pu_isAdmin := None; pu_canLogin := true;
                         pu_banExpiry := None; pu_balance := 250000 |};
                    lr_token := js "t0k3n" |}, s')
      ∧ canLogin <$> user_named (js "carol") (users s') = Some true
      ∧ banExpiry <$> user_named (js "carol") (users s') = Some None
      ∧ password <$> user_named (js "carol") (users s')
        = Some (js "carol-pw").
Proof.
  split_and!.
  - apply (login_outcomes (1 * DAY) (js "t0k3n") (js "carol") (js "guess")
             Demo.store0) with (i := 2%nat) (u := Demo.carol);
      [reflexivity | vm_compute; discriminate].
  - apply (login_outcomes (1 * DAY) (js "t0k3n") (js "carol") (js "carol-pw")
             Demo.store0) with (i := 2%nat) (u := Demo.carol) (e := 7 * DAY);
      [reflexivity | reflexivity | reflexivity | reflexivity
      | vm_compute; reflexivity].
  - pose proof (login_outcomes (8 * DAY) (js "t0k3n") (js "carol")
                  (js "carol-pw") Demo.store0) as (_ & _ & _ & Hlift & _).
    destruct (Hlift 2%nat Demo.carol (7 * DAY))
      as (s' & u' & Hrun & _ & Hnamed & Hcan & Hexp & Hsame & _);
      [reflexivity | reflexivity | intros [=] | reflexivity
      | vm_compute; discriminate |].
    exists s'. split; [exact Hrun|]. rewrite Hnamed. simpl.
    destruct Hsame as (_ & Hpw & _). by rewrite Hcan, Hexp, Hpw.
Defined.




(** ** Sweep of expired sales *)






(** ** The isDeleted flag never goes back *)

Lemma purchase_cases (now : Z) (pid uname : jsstring) (s : Store) :
  (∃ e, purchaseProduct now pid uname s = (Reject e, s))
  ∨ (∃ idx p i b,
       find_product pid (products s) = Some (idx, p)
       ∧ truthy_opt (purchasedBy p) = false
       ∧ find_user uname (users s) = Some (i, b)
       ∧ price p ≤ balance b).
Proof.
  destruct (purchaseProduct now pid uname s) as [[r|e] s'] eqn:Hrun.
  - right. revert Hrun. unfold purchaseProduct. run.
    destruct (find_product pid (products s)) as [[idx p]|]; [|done].
    destruct (truthy_opt (purchasedBy p)) eqn:Hsold; [done|].
    unfold user_named.
    destruct (find_user uname (users s)) as [[i b]|]; cbn; [|done].
    destruct (Z.ltb_spec (balance b) (price p)); [done|].
    intros _. by exists idx, p, i, b.
  - left. exists e. by rewrite (purchase_reject_unchanged _ _ _ _ _ _ Hrun).
Qed.

Lemma deleted_at_insert (ps : list Product) (idx i : nat) (p0 q : Product)
    (pid : jsstring) :
  ps !! idx = Some p0 →
  p_id q = p_id p0 →
  (isDeleted p0 = Some true → isDeleted q = Some true) →
  deleted_at ps i pid → deleted_at (<[idx := q]> ps) i pid.
Proof.
  intros Hidx Hid Hq (p & Hp & Hpid & Hd).
  destruct (decide (i = idx)) as [->|Hne].
  - exists q. rewrite list_lookup_insert_eq by by eapply lookup_lt_Some.
    split_and!; [done|congruence|]. apply Hq. congruence.
  - exists p. by rewrite list_lookup_insert_ne.
Qed.

(** [api.updateProduct] keeps the flag for every patch without an
    [isDeleted] entry, whether it resolves or rejects. *)
Lemma updateProduct_keeps_deleted (pid : jsstring) (d : ProductPatch)
    (uname : jsstring) (s : Store) (i : nat) (k : jsstring) :
  pt_isDeleted d = None → pt_id d = None →
  deleted_at (products s) i k →
  deleted_at (products (updateProduct pid d uname s).2) i k.
Proof.
  intros Hd Hid Hdel. unfold updateProduct. run.
  destruct (find_product pid (products s)) as [[idx p0]|] eqn:Hp0; [|done].
  destruct (may_manage p0 uname (users s)); [|done]. simpl.
  apply find_product_lookup in Hp0 as [Hp0 _].
  apply deleted_at_insert with p0; [done| | |done].
  - unfold merge. simpl. by rewrite Hid.
  - unfold merge. simpl. by rewrite Hd.
Qed.

Lemma exec_keeps_deleted (o : Op) (s : Store) (i : nat) (k : jsstring) :
  deleted_at (products s) i k → deleted_at (products (exec o s)) i k.
Proof.
  intros Hd. destruct o; simpl.
  - destruct Hd as (p & Hp & Hdel). exists p.
    split; [by apply lookup_app_l_Some|done].
  - by apply updateProduct_keeps_deleted.
  - unfold deleteProduct. run.
    destruct (find_product pid (products s)) as [[idx p0]|] eqn:Hp0; [|done].
    destruct (may_manage p0 uname (users s)); [|done]. simpl.
    apply find_product_lookup in Hp0 as [Hp0 _].
    by apply deleted_at_insert with p0.
  - destruct (purchase_cases now pid uname s)
      as [[e ->]|(idx & p0 & j & b & Hp0 & Hsold & Hb & Hfunds)]; [done|].
    rewrite (purchase_run now pid s idx p0 Hp0 uname j b Hsold Hb Hfunds).
    simpl. apply find_product_lookup in Hp0 as [Hp0 _].
    by apply deleted_at_insert with p0.
  - destruct Hd as (p & Hp & Hpid & Hdel). exists (sweep_one now p).
    rewrite list_lookup_fmap, Hp. split; [done|].
    unfold sweep_one. by destruct (sweepable now p).
  - unfold handleDeleteContent, verifyAdminAndExecute.
    destruct (truthy_flag (user ≫= pu_isAdmin)); [|done].
    unfold removeReport, updateReportsData, setReports, on_store. run.
    destruct (r_type report); simpl; try done.
    + destruct (messageIndex_of _ _); done.
    + destruct (product_of _ _) as [[idx p0]|] eqn:Hp0; [|done]. simpl.
      unfold product_of in Hp0. destruct (contentId report); [|done].
      apply find_product_lookup in Hp0 as [Hp0 _].
      by apply deleted_at_insert with p0.
Qed.

Lemma find_product_insert_same (pid : jsstring) (ps : list Product)
    (idx : nat) (p q : Product) :
  find_product pid ps = Some (idx, p) → p_id q = p_id p →
  find_product pid (<[idx := q]> ps) = Some (idx, q).
Proof.
  intros H Hq. destruct (find_product_lookup _ _ _ _ H) as [Hidx Hp].
  rewrite list_insert_alter. unfold find_product in *.
  apply list_find_Some in H as (_ & _ & Hleast).
  apply list_find_Some. split_and!.
  - rewrite list_lookup_alter_eq, Hidx. done.
  - congruence.
  - intros j y Hj Hlt. rewrite list_lookup_alter_ne in Hj by lia. eauto.
Qed.

(** C6: no exposed operation (create, update through the edit form, soft
    delete, purchase, sweep, admin content deletion), and no sequence of
    them, turns a product whose isDeleted is true into one whose isDeleted
    is not true: the product stays at its position in the table, with its
    id and with isDeleted true; and after a soft delete that resolved, the same soft delete
    resolves again with the same product, isDeleted still true, and leaves
    the store exactly as the first one left it. *)
Theorem isDeleted_monotonic :
  (∀ (o : Op) (s : Store) (i : nat) (k : jsstring),
     deleted_at (products s) i k → deleted_at (products (exec o s)) i k)
  ∧ (∀ (ops : list Op) (s : Store) (i : nat) (k : jsstring),
       deleted_at (products s) i k →
       deleted_at (products (exec_all ops s)) i k)
  ∧ (∀ (pid uname : jsstring) (s s1 : Store) (p : Product),
       deleteProduct pid uname s = (Resolve p, s1) →
       isDeleted p = Some true
       ∧ deleteProduct pid uname s1 = (Resolve p, s1)).
Proof.
  split_and!.
  - apply exec_keeps_deleted.
  - intros ops. unfold exec_all.
    induction ops as [|o ops IH]; intros s i k Hd; [done|].
    simpl. apply IH. by apply exec_keeps_deleted.
  - intros pid uname s s1 p. unfold deleteProduct. run.
    destruct (find_product pid (products s)) as [[idx p0]|] eqn:Hp0; [|done].
    destruct (may_manage p0 uname (users s)) eqn:Hok; [|done]. simpl.
    intros [= <- <-]. split; [done|]. simpl.
    rewrite (find_product_insert_same pid _ idx p0 (set_isDeleted true p0))
      by done.
    unfold may_manage in *. simpl. rewrite Hok. simpl.
    unfold set_products. simpl. by rewrite list_insert_insert_eq.
Qed.

(** Witness for C6: bob deletes his product p1; purchases, edits, sweeps
    and a second delete afterwards leave it deleted. *)
Lemma isDeleted_monotonic_witness :
  let s1 := exec (SoftDeleteListing (js "p1") (js "bob")) Demo.store0 in
  deleted_at (products s1) 0 (js "p1")
  ∧ deleted_at
      (products
         (exec_all
            [Purchase 5 (js "p1") (js "alice");
             UpdateListing (js "p1") (js "lamp") (js "new") 7 (js "u.png")
                           (js "bob");
             SweepExpiredSales (3 * DAY);
             SoftDeleteListing (js "p1") (js "bob")] s1)) 0 (js "p1")
  ∧ deleteProduct (js "p1") (js "bob") s1
    = (Resolve (set_isDeleted true Demo.p1), s1).
Proof.
  intros s1.
  assert (H1 : deleted_at (products s1) 0 (js "p1")).
  { exists (set_isDeleted true Demo.p1). split_and!; reflexivity. }
  split_and!.
  - exact H1.
  - apply (proj1 (proj2 isDeleted_monotonic)). exact H1.
  - apply (proj2 (proj2 isDeleted_monotonic)) with (s := Demo.store0).
    reflexivity.
Defined.

(** [api.updateProduct] itself merges whatever patch it is handed: a patch
    that carried [isDeleted: false] would clear the flag.  No caller builds
    such a patch. *)
Remark updateProduct_merges_any_patch (p : Product) :
  isDeleted (merge p {| pt_id := None; pt_title := None;
                        pt_description := None; pt_price := None;
                        pt_imageUrl := None; pt_author := None;
                        pt_createdAt := None; pt_purchasedBy := None;
                        pt_purchasedAt := None;
                        pt_isDeleted := Some (Some false) |}) = Some false.
Proof. reflexivity. Qed.

(** ** The user-row invariant is kept

    The ban-lift case of login is stated for rows satisfying [user_inv];
    every operation that writes user rows keeps it. *)

Lemma Forall_alter_inv (f : User → User) (us : list User) (i : nat) :
  (∀ u, user_inv u → user_inv (f u)) →
  Forall user_inv us → Forall user_inv (alter f i us).
Proof.
  intros Hf Hus. apply Forall_lookup. intros j u Hj.
  rewrite list_lookup_alter in Hj. destruct (decide (i = j)) as [->|].
  - destruct (us !! j) as [v|] eqn:Hv; simplify_eq/=.
    apply Hf. by eapply (Forall_lookup_1 user_inv us).
  - by eapply (Forall_lookup_1 user_inv us).
Qed.

Lemma Forall_insert_inv (us : list User) (i : nat) (u : User) :
  user_inv u → Forall user_inv us → Forall user_inv (<[i := u]> us).
Proof.
  intros Hu Hus. rewrite list_insert_alter. by apply Forall_alter_inv.
Qed.

Lemma users_inv_kept (tz : TimeZone) (now : Z)
    (tok uname pw adminName pid : jsstring) (days : option Z) (s : Store) :
  Forall user_inv (users s) →
  Forall user_inv (users (login now tok uname pw s).2)
  ∧ Forall user_inv (users (banUser tz now uname days adminName s).2)
  ∧ Forall user_inv (users (unbanUser uname adminName s).2)
  ∧ Forall user_inv (users (purchaseProduct now pid uname s).2).
Proof.
  intros Hinv. split_and!.
  - unfold login. run.
    destruct (find_user uname (users s)) as [[i u]|]; [|done].
    destruct (bool_decide _); simpl; [|done].
    destruct (canLogin u); simpl; [done|].
    destruct (banExpiry u) as [e|]; [destruct (now <? e); simpl; [done|]|];
      by apply Forall_alter_inv.
  - unfold banUser. run.
    destruct (isAdmin_named adminName (users s)); simpl; [|done].
    destruct days as [d|]; [|done].
    destruct ((d <=? 0) || (365 <? d)); simpl; [done|].
    destruct (find_user uname (users s)) as [[i u]|]; simpl; [|done].
    by apply Forall_insert_inv.
  - unfold unbanUser. run.
    destruct (isAdmin_named adminName (users s)); simpl; [|done].
    destruct (find_user uname (users s)) as [[i u]|]; simpl; [|done].
    by apply Forall_insert_inv.
  - destruct (purchase_cases now pid uname s)
      as [[e ->]|(idx & p0 & j & b & Hp0 & Hsold & Hb & Hfunds)]; [done|].
    rewrite (purchase_run now pid s idx p0 Hp0 uname j b Hsold Hb Hfunds).
    simpl. destruct (userIndex_of _ _); repeat apply Forall_alter_inv; done.
Qed.

(** ** Admin dashboard *)

Lemma mountDashboard_in_sync (s : Store) : in_sync (mountDashboard s).
Proof. done. Qed.

Lemma handleBanUser_run (tz : TimeZone) (now : Z)
    (user : option PublicUser) (uname : jsstring) (a : Admin) :
  truthy_flag (user ≫= pu_isAdmin) = true →
  ∃ us',
    handleBanUser tz now user uname a =
      (Resolve tt,
       let kept := filter (λ r, reportedUser r ≠ uname) (d_reports (dash a)) in
       {| store := {| users := us'; products := products (store a);
                      reports := kept; messages := messages (store a) |};
          dash := {| d_reports := kept; banDuration := banDuration (dash a);
                     bannedUsers := filter (λ u, canLogin u = false) us' |} |}).
Proof.
  intros Hadm. unfold handleBanUser, verifyAdminAndExecute. rewrite Hadm.
  unfold updateReportsData, setReports, setBannedUsers, on_store. run.
  destruct (find_user uname (users (store a))) as [[i u]|]; simpl;
    eexists; reflexivity.
Qed.

(** C10: when an admin bans a user from the dashboard (whose report list
    agrees with the report table), the table afterwards is the old table
    without the reports whose reportedUser is the banned name, in the old
    order: a report is in the new table exactly when it was in the old one
    and names another user, whatever its type and id; the dashboard's list
    is updated alike, and products and messages are untouched. *)
Theorem dashboard_ban_drops_reports_of_user (tz : TimeZone) (now : Z)
    (user : option PublicUser) (uname : jsstring) (a : Admin) :
  truthy_flag (user ≫= pu_isAdmin) = true →
  in_sync a →
  ∃ a',
    handleBanUser tz now user uname a = (Resolve tt, a')
    ∧ reports (store a')
      = filter (λ r, reportedUser r ≠ uname) (reports (store a))
    ∧ (∀ r, r ∈ reports (store a') ↔
            r ∈ reports (store a) ∧ reportedUser r ≠ uname)
    ∧ in_sync a'
    ∧ products (store a') = products (store a)
    ∧ messages (store a') = messages (store a).
Proof.
  intros Hadm Hsync. destruct (handleBanUser_run tz now user uname a Hadm)
    as [us' Hrun].
  eexists. split; [exact Hrun|]. simpl. rewrite Hsync. split_and!; try done.
  intros r. rewrite list_elem_of_filter. tauto.
Qed.

(** Witness for C10: root bans bob; both reports against bob (a user report
    and a product report) go, the report against carol stays. *)
Lemma dashboard_ban_drops_reports_of_user_witness :
  ∃ a',
    handleBanUser Clock.utc 0 Demo.root_view (js "bob")
      (mountDashboard Demo.store0)
      = (Resolve tt, a')
    ∧ reports (store a') = [Demo.complaint "r2" "carol" TUser].
Proof.
  destruct (dashboard_ban_drops_reports_of_user Clock.utc 0 Demo.root_view
              (js "bob") (mountDashboard Demo.store0))
    as (a' & Hrun & Hreports & _); [reflexivity | reflexivity |].
  exists a'. split; [exact Hrun|]. rewrite Hreports. reflexivity.
Defined.

(** The dashboard's ban period always lies in the range that [api.banUser]
    enforces. *)
Lemma dashboard_ban_period_in_range (o : BanOption) :
  1 ≤ parseInt_option o ≤ 365.
Proof. destruct o; simpl; lia. Qed.


(** A user who is not an admin changes nothing from the dashboard. *)
Lemma dashboard_requires_admin (tz : TimeZone) (now : Z)
    (user : option PublicUser) (uname rid : jsstring) (report : Report)
    (a : Admin) :
  truthy_flag (user ≫= pu_isAdmin) = false →
  handleBanUser tz now user uname a = (Reject AdminRequired, a)
  ∧ handleUnbanUser user uname a = (Reject AdminRequired, a)
  ∧ handleDeleteContent user report a = (Reject AdminRequired, a)
  ∧ handleDismissReport user rid a = (Reject AdminRequired, a).
Proof.
  intros Hadm.
  unfold handleBanUser, handleUnbanUser, handleDeleteContent,
    handleDismissReport, verifyAdminAndExecute.
  by rewrite Hadm.
Qed.

(** Every dashboard handler keeps the dashboard's list equal to the table,
    so [in_sync] holds from the mount on. *)
Lemma dashboard_handlers_keep_sync (tz : TimeZone) (now : Z)
    (user : option PublicUser) (uname rid : jsstring) (report : Report)
    (a : Admin) :
  in_sync a →
  in_sync (handleBanUser tz now user uname a).2
  ∧ in_sync (handleUnbanUser user uname a).2
  ∧ in_sync (handleDeleteContent user report a).2
  ∧ in_sync (handleDismissReport user rid a).2.
Proof.
  intros Hsync.
  unfold handleBanUser, handleUnbanUser, handleDeleteContent,
    handleDismissReport, verifyAdminAndExecute.
  destruct (truthy_flag (user ≫= pu_isAdmin)); [|done].
  unfold removeReport, updateReportsData, setReports, setBannedUsers, on_store.
  run. split_and!.
  - by destruct (find_user uname (users (store a))) as [[i u]|].
  - by destruct (find_user uname (users (store a))) as [[i u]|].
  - destruct (r_type report); simpl; try done.
    + by destruct (messageIndex_of _ _).
    + by destruct (product_of _ _) as [[idx p0]|].
  - done.
Qed.

(** ** Reports *)

Lemma trim_nil : trim [] = [].
Proof. reflexivity. Qed.

(** [api.reportUser] measures the trimmed reason: it rejects exactly when
    fewer than five characters remain, and otherwise appends one row. *)
Lemma reportUser_outcomes (now : Z) (uuid target r reporter : jsstring)
    (s : Store) :
  (jslength (trim r) < 5 →
     reportUser now uuid target r reporter s = (Reject ReasonTooShort, s))
  ∧ (5 ≤ jslength (trim r) →
     reportUser now uuid target r reporter s =
       (Resolve tt,
        set_reports
          (reports s ++
             [{| r_id := uuid; r_type := TUser; reportedUser := target;
                 reason := r; reportedBy := reporter; r_createdAt := now;
                 contentId := None |}]) s)).
Proof.
  unfold reportUser, push_report. run. split; intros H.
  - destruct (Z.ltb_spec (jslength (trim r)) 5); [|lia].
    by rewrite orb_true_r.
  - destruct (Z.ltb_spec (jslength (trim r)) 5); [lia|].
    destruct r; [by rewrite trim_nil in H|done].
Qed.

(** The profile form and the chat form refuse a reason whose trimmed text
    has fewer than five characters. *)
Lemma user_and_chat_forms_trim (sanitize : jsstring → jsstring) (now : Z)
    (uuid : jsstring) (viewer : PublicUser) (target : jsstring)
    (message : ChatMessage) (r : jsstring) (s : Store) :
  jslength (trim r) < 5 →
  (∃ e, handleReport_user sanitize now uuid (Some viewer) target r s
        = (Reject e, s))
  ∧ (∃ e, handleReport_chat sanitize now uuid (Some viewer) message r s
          = (Reject e, s)).
Proof.
  intros H. split.
  - unfold handleReport_user. run.
    destruct (truthy (trim r)); simpl; [|by eexists].
    destruct (Z.ltb_spec (jslength (trim r)) 5); [by eexists|lia].
  - unfold handleReport_chat, validateInput. run.
    destruct (bool_decide _); [by eexists|].
    destruct (Z.ltb_spec (jslength (trim r)) 5); [|lia].
    rewrite orb_true_r. by eexists.
Qed.

(** The product form measures the untrimmed reason: any reason that is not
    blank and has five or more characters before trimming is filed, however
    short its trimmed text is. *)
Lemma product_form_measures_raw_length (sanitize : jsstring → jsstring)
    (now : Z) (uuid pid : jsstring) (viewer : PublicUser) (shown : Product)
    (idx : nat) (p : Product) (r : jsstring) (s : Store) :
  author shown ≠ pu_username viewer →
  find_product pid (products s) = Some (idx, p) →
  trim r ≠ [] → 5 ≤ jslength r →
  handleReport_product sanitize now uuid (Some viewer) (Some shown) pid r s
  = (Resolve tt,
     set_reports
       (reports s ++
          [{| r_id := uuid; r_type := TProduct; contentId := Some pid;
              reportedUser := author p; reason := sanitize (trim r);
              reportedBy := pu_username viewer; r_createdAt := now |}]) s).
Proof.
  intros Hother Hprod Hblank Hlen.
  unfold handleReport_product, reportProduct, push_report, sanitizeText. run.
  simpl. rewrite bool_decide_eq_false_2 by congruence.
  destruct (trim r) as [|c t] eqn:Ht; [done|]. simpl.
  destruct (Z.ltb_spec (jslength r) 5); [lia|]. by rewrite Hprod.
Qed.

(** C7 (the product form does not hold it): with the five-character reason
    "bad" followed by two blanks, whose trimmed text has three characters,
    the product report form raises no "too short" error and appends a report
    whose reason is the sanitized three-character text, while the profile
    form refuses the same reason as too short. *)
Theorem product_report_accepts_padded_reason
    (sanitize : jsstring → jsstring) (now : Z) (uuid : jsstring) :
  jslength (trim (js "bad  ")) = 3
  ∧ handleReport_product sanitize now uuid Demo.alice_view (Some Demo.p1)
      (js "p1") (js "bad  ") Demo.store0
    = (Resolve tt,
       set_reports
         (reports Demo.store0 ++
            [{| r_id := uuid; r_type := TProduct;
                contentId := Some (js "p1"); reportedUser := js "bob";
                reason := sanitize (js "bad"); reportedBy := js "alice";
                r_createdAt := now |}]) Demo.store0)
  ∧ handleReport_user sanitize now uuid Demo.alice_view (js "bob")
      (js "bad  ") Demo.store0
    = (Reject ReasonTooShort, Demo.store0).
Proof. split_and!; reflexivity. Qed.

(** ** Session restoration *)

Lemma storage_get_run (c : AuthCtx) :
  storage_get c = (Resolve (session_value (auth_session c)), c).
Proof.
  destruct c as [u l [|raw [v|]]];
    unfold storage_get, getItem, JSON_parse, session_value; run; simpl;
    [done| |]; by destruct (truthy raw).
Qed.

Lemma initializeAuth_run (s : Store) (c : AuthCtx) :
  initializeAuth s c =
    (Resolve tt,
     let v := session_value (auth_session c) in
     if complete_session v then
       match session_user s v with
       | Some u => {| ctx_user := Some (withoutPassword u); isLoading := false;
                      auth_session := auth_session c |}
       | None => {| ctx_user := ctx_user c; isLoading := false;
                    auth_session := Missing |}
       end
     else {| ctx_user := ctx_user c; isLoading := false;
             auth_session := auth_session c |}).
Proof.
  unfold initializeAuth, try_catch, bind, setIsLoading, modify at 1.
  rewrite storage_get_run. simpl.
  destruct (complete_session _); [|done].
  unfold getUser, session_user.
  destruct (prop (js "userId") _) as [[| | |name| |]|]; try done.
  by destruct (user_named name (users s)).
Qed.

(** Session restoration never throws: for every store and every persisted
    record it finishes normally with the loading flag off.
    When the record is missing, does not parse, lacks a truthy token or
    userId, or names a user who is not in the store, there is no current
    user afterwards.  The persisted record is cleared when the user lookup
    failed; a record that is missing, unparsable or incomplete is left as
    it was.  When the record is complete and its user exists, that user
    (without password) becomes the current user and the record is kept. *)
Theorem restoreSession_outcomes (s : Store) (session : Persisted) :
  ∃ c',
    initializeAuth s (initialAuth session) = (Resolve tt, c')
    ∧ isLoading c' = false
    ∧ (complete_session (session_value session) = false →
       ctx_user c' = None ∧ auth_session c' = session)
    ∧ (complete_session (session_value session) = true →
       session_user s (session_value session) = None →
       ctx_user c' = None ∧ auth_session c' = Missing)
    ∧ (∀ u, complete_session (session_value session) = true →
       session_user s (session_value session) = Some u →
       ctx_user c' = Some (withoutPassword u) ∧ auth_session c' = session).
Proof.
  eexists. split; [apply initializeAuth_run|]. simpl.
  destruct (complete_session (session_value session)).
  - destruct (session_user s (session_value session)) as [u|];
      split_and!; try done. by intros u' _ [= <-].
  - split_and!; done.
Qed.

(** For instance: alice's session restores her; a session for a user who
    is gone is cleared; one without a token is left in place. *)
Lemma restoreSession_outcomes_witness :
  (∃ c', initializeAuth Demo.store0 (initialAuth Demo.good_session)
           = (Resolve tt, c')
         ∧ ctx_user c' = Demo.alice_view
         ∧ auth_session c' = Demo.good_session)
  ∧ (∃ c', initializeAuth Demo.store0 (initialAuth Demo.stale_session)
             = (Resolve tt, c')
           ∧ ctx_user c' = None ∧ auth_session c' = Missing)
  ∧ (∃ c', initializeAuth Demo.store0 (initialAuth Demo.tokenless_session)
             = (Resolve tt, c')
           ∧ ctx_user c' = None
           ∧ auth_session c' = Demo.tokenless_session).
Proof.
  split_and!.
  - destruct (restoreSession_outcomes Demo.store0 Demo.good_session)
      as (c' & Hrun & _ & _ & _ & Hgood).
    exists c'. split; [exact Hrun|].
    apply (Hgood Demo.alice); reflexivity.
  - destruct (restoreSession_outcomes Demo.store0 Demo.stale_session)
      as (c' & Hrun & _ & _ & Hstale & _).
    exists c'. split; [exact Hrun|]. apply Hstale; reflexivity.
  - destruct (restoreSession_outcomes Demo.store0 Demo.tokenless_session)
      as (c' & Hrun & _ & Hpartial & _).
    exists c'. split; [exact Hrun|]. apply Hpartial; reflexivity.
Defined.

(** C8 (the code does not hold it): with the persisted text "{oops", which
    is not JSON, restoration finishes normally with no current user, but
    the persisted record is not cleared: [storage.get] swallows the parse
    error and returns null, the guard fails, and the [catch] block with
    [storage.remove] is never reached.  The record is still there
    afterwards, unlike the record of a user who is gone. *)
Theorem malformed_session_is_not_cleared :
  ∃ c',
    initializeAuth Demo.store0 (initialAuth Demo.broken_session)
      = (Resolve tt, c')
    ∧ ctx_user c' = None
    ∧ auth_session c' = Demo.broken_session
    ∧ auth_session c' ≠ Missing.
Proof. eexists. split_and!; [reflexivity..|discriminate]. Qed.

(** * Properties of the rest of the application *)

(** ** Evaluating login and ban *)

Lemma login_unknown (now : Z) (tok uname pw : jsstring) (s : Store) :
  find_user uname (users s) = None →
  login now tok uname pw s = (Reject InvalidCredentials, s).
Proof. intros H. unfold login. run. by rewrite H. Qed.

Lemma login_wrong_password (now : Z) (tok uname pw : jsstring) (s : Store)
    (i : nat) (u : User) :
  find_user uname (users s) = Some (i, u) → password u ≠ pw →
  login now tok uname pw s = (Reject InvalidCredentials, s).
Proof.
  intros H Hpw. unfold login. run. rewrite H.
  by rewrite bool_decide_eq_false_2.
Qed.

Lemma login_allowed (now : Z) (tok uname : jsstring) (s : Store)
    (i : nat) (u : User) :
  find_user uname (users s) = Some (i, u) → canLogin u = true →
  login now tok uname (password u) s =
    (Resolve {| lr_user := withoutPassword u; lr_token := tok |}, s).
Proof.
  intros H Hcan. unfold login. run. rewrite H.
  rewrite bool_decide_eq_true_2 by done. cbn. rewrite Hcan. cbn.
  destruct (find_user_lookup _ _ _ _ H) as [Hi _]. by rewrite Hi.
Qed.

Lemma login_refused (now : Z) (tok uname : jsstring) (s : Store)
    (i : nat) (u : User) (e : Z) :
  find_user uname (users s) = Some (i, u) →
  canLogin u = false → banExpiry u = Some e → now < e →
  login now tok uname (password u) s =
    (Reject (Banned (ceil_div (e - now) DAY)), s).
Proof.
  intros H Hcan He Hlt. unfold login. run. rewrite H.
  rewrite bool_decide_eq_true_2 by done. cbn. rewrite Hcan, He. cbn.
  destruct (Z.ltb_spec now e); [done|lia].
Qed.

Lemma login_lifts (now : Z) (tok uname : jsstring) (s : Store)
    (i : nat) (u : User) :
  find_user uname (users s) = Some (i, u) →
  canLogin u = false → showsBanned u now = false →
  login now tok uname (password u) s =
    (Resolve {| lr_user := withoutPassword (set_ban true None u);
                lr_token := tok |},
     set_users (alter (set_ban true None) i (users s)) s).
Proof.
  intros H Hcan Hshow. unfold login. run. rewrite H.
  rewrite bool_decide_eq_true_2 by done. cbn. rewrite Hcan. cbn.
  destruct (find_user_lookup _ _ _ _ H) as [Hi _].
  unfold showsBanned in Hshow.
  destruct (banExpiry u) as [e|]; [rewrite Hshow|]; cbn;
    by rewrite list_lookup_alter_eq, Hi.
Qed.

Lemma banUser_applied (tz : TimeZone) (now : Z) (uname adminName : jsstring)
    (d : Z) (s : Store) (i : nat) (u : User) :
  isAdmin_named adminName (users s) = true → 1 ≤ d ≤ 365 →
  find_user uname (users s) = Some (i, u) →
  banUser tz now uname (Some d) adminName s =
    (Resolve {| br_user := set_ban false (Some (addDays tz now d)) u;
                expiryDate := addDays tz now d |},
     set_users (<[i := set_ban false (Some (addDays tz now d)) u]> (users s))
               s).
Proof.
  intros Hadm Hd H. unfold banUser. run. rewrite Hadm. cbn.
  destruct (Z.leb_spec d 0); [lia|].
  destruct (Z.ltb_spec 365 d); [lia|]. cbn. by rewrite H.
Qed.

Lemma find_user_app (name : jsstring) (us : list User) (u : User) :
  find_user name (us ++ [u]) =
  match find_user name us with
  | Some r => Some r
  | None => if decide (username u = name) then Some (length us, u) else None
  end.
Proof.
  unfold find_user. induction us as [|v us IH]; csimpl.
  - by destruct (decide (username u = name)).
  - destruct (decide (username v = name)); [done|].
    rewrite IH. destruct (list_find _ us) as [[k w]|]; [done|].
    by destruct (decide (username u = name)).
Qed.

Lemma find_user_None_names (name : jsstring) (us : list User) :
  find_user name us = None ↔ name ∉ username <$> us.
Proof.
  unfold find_user. rewrite list_find_None, Forall_forall, list_elem_of_fmap.
  split.
  - intros H (u & -> & Hu). by apply (H u).
  - intros H u Hu Heq. apply H. by exists u.
Qed.

(** ** Rows are only rewritten in place or appended *)

Lemma fmap_alter_same {A B} (g : A → B) (f : A → A) (l : list A) (i : nat) :
  (∀ x, g (f x) = g x) → g <$> alter f i l = g <$> l.
Proof.
  intros Hg. revert i. induction l as [|x l IH]; intros [|i]; csimpl;
    [done|done| |]; f_equal; auto.
Qed.

Lemma fmap_insert_same {A B} (g : A → B) (l : list A) (i : nat) (x y : A) :
  l !! i = Some x → g y = g x → g <$> <[i := y]> l = g <$> l.
Proof.
  revert i. induction l as [|z l IH]; intros [|i] Hi Hg; simplify_eq/=;
    f_equal; eauto.
Qed.

Lemma same_accounts_alter (f : User → User) (us : list User) (i : nat) :
  (∀ u, username (f u) = username u) → (∀ u, isAdmin (f u) = isAdmin u) →
  same_accounts us (alter f i us).
Proof. intros. split; by apply fmap_alter_same. Qed.

Lemma same_accounts_insert (f : User → User) (us : list User) (i : nat)
    (u : User) :
  (∀ u, username (f u) = username u) → (∀ u, isAdmin (f u) = isAdmin u) →
  us !! i = Some u → same_accounts us (<[i := f u]> us).
Proof.
  intros ?? Hi. rewrite (insert_as_alter f) by done.
  by apply same_accounts_alter.
Qed.

Lemma same_accounts_trans (us1 us2 us3 : list User) :
  same_accounts us1 us2 → same_accounts us2 us3 → same_accounts us1 us3.
Proof. intros [??] [??]. split; congruence. Qed.

Lemma account_step_rows (o : AccountOp) (s : Store) :
  same_accounts (users s) (users (account_step o s))
  ∨ (∃ n pw b, find_user n (users s) = None
               ∧ users (account_step o s) = users s ++ [newUser n pw b]).
Proof.
  assert (Hrefl : same_accounts (users s) (users s)) by done.
  destruct o; simpl.
  - unfold register.
    destruct (find_user uname (users s)) eqn:H; [by left|].
    right. by exists uname, pw, bio'.
  - left. unfold login. run.
    destruct (find_user uname (users s)) as [[i u]|]; [|done].
    destruct (bool_decide _); simpl; [|done].
    destruct (canLogin u); simpl; [done|].
    destruct (banExpiry u) as [e|]; [destruct (now <? e); simpl; [done|]|];
      by apply same_accounts_alter.
  - left. unfold updatePassword.
    destruct (find_user uname (users s)) as [[i u]|] eqn:H; [|done].
    destruct (bool_decide _); [done|]. simpl.
    apply (same_accounts_insert (set_password new)); try done.
    by apply find_user_lookup in H as [??].
  - left. unfold updateBio.
    destruct (find_user uname (users s)) as [[i u]|] eqn:H; [|done]. simpl.
    apply (same_accounts_insert (set_bio bio')); try done.
    by apply find_user_lookup in H as [??].
  - left. unfold updateBalance.
    destruct (find_user uname (users s)) as [[i u]|] eqn:H; [|done]. simpl.
    apply (same_accounts_insert (set_balance amount)); try done.
    by apply find_user_lookup in H as [??].
  - left. unfold banUser. run.
    destruct (isAdmin_named admin (users s)); simpl; [|done].
    destruct days as [d|]; [|done].
    destruct ((d <=? 0) || (365 <? d)); simpl; [done|].
    destruct (find_user uname (users s)) as [[i u]|] eqn:H; simpl; [|done].
    apply (same_accounts_insert (set_ban false _)); try done.
    by apply find_user_lookup in H as [??].
  - left. unfold unbanUser. run.
    destruct (isAdmin_named admin (users s)); simpl; [|done].
    destruct (find_user uname (users s)) as [[i u]|] eqn:H; simpl; [|done].
    apply (same_accounts_insert (set_ban true None)); try done.
    by apply find_user_lookup in H as [??].
  - left. destruct (purchase_cases now pid uname s)
      as [[e ->]|(idx & p0 & j & b & Hp0 & Hsold & Hb & Hfunds)]; [done|].
    rewrite (purchase_run now pid s idx p0 Hp0 uname j b Hsold Hb Hfunds).
    simpl. destruct (userIndex_of _ _).
    + eapply same_accounts_trans; by apply same_accounts_alter.
    + by apply same_accounts_alter.
  - left. unfold handleBanUser, verifyAdminAndExecute.
    destruct (truthy_flag (user ≫= pu_isAdmin)); [|done].
    unfold updateReportsData, setReports, setBannedUsers, on_store. run.
    simpl. destruct (find_user uname (users s)) as [[i u]|] eqn:H; simpl;
      [|done].
    apply (same_accounts_insert (set_ban false _)); try done.
    by apply find_user_lookup in H as [??].
  - left. unfold handleUnbanUser, verifyAdminAndExecute.
    destruct (truthy_flag (user ≫= pu_isAdmin)); [|done].
    unfold setBannedUsers, on_store. run.
    simpl. destruct (find_user uname (users s)) as [[i u]|] eqn:H; simpl;
      [|done].
    apply (same_accounts_insert (set_ban true None)); try done.
    by apply find_user_lookup in H as [??].
Qed.

Lemma same_accounts_admin (n : jsstring) (us us' : list User) :
  same_accounts us us' → isAdmin_named n us' = isAdmin_named n us.
Proof.
  unfold isAdmin_named, user_named, find_user.
  revert us'. induction us as [|u us IH]; intros [|u' us'] [Hn Ha];
    try done.
  injection Hn as Hn1 Hn2. injection Ha as Ha1 Ha2.
  specialize (IH us' (conj Hn2 Ha2)). csimpl. rewrite Hn1.
  destruct (decide (username u = n)); simpl; [by rewrite Ha1|].
  destruct (list_find _ us') as [[k v]|], (list_find _ us) as [[k' v']|];
    done.
Qed.

Lemma same_accounts_names (us us' : list User) :
  same_accounts us us' → username <$> us' = username <$> us.
Proof. by intros [??]. Qed.

Lemma isAdmin_named_app_fresh (n m pw b : jsstring) (us : list User) :
  isAdmin_named n (us ++ [newUser m pw b]) = isAdmin_named n us.
Proof.
  unfold isAdmin_named, user_named. rewrite find_user_app.
  destruct (find_user n us) as [[k v]|]; [done|]. simpl.
  by destruct (decide (m = n)).
Qed.

(** X5: whatever sequence of account operations runs (register, login,
    password, bio and balance updates, ban and unban from the profile page
    or the dashboard, purchase), every name is an administrator afterwards
    exactly when it was one before. *)
Theorem admin_flags_never_change (ops : list AccountOp) (s : Store)
    (n : jsstring) :
  isAdmin_named n (users (account_steps ops s)) = isAdmin_named n (users s).
Proof.
  unfold account_steps. revert s.
  induction ops as [|o ops IH]; intros s; [done|]. simpl. rewrite IH.
  destruct (account_step_rows o s) as [Hsame|(m & pw & b & _ & ->)].
  - by apply same_accounts_admin.
  - apply isAdmin_named_app_fresh.
Qed.

(** X3: account operations keep usernames unique: when no two rows share a
    username, no sequence of account operations makes two rows share one. *)
Theorem usernames_stay_unique (ops : list AccountOp) (s : Store) :
  NoDup (username <$> users s) →
  NoDup (username <$> users (account_steps ops s)).
Proof.
  unfold account_steps. revert s.
  induction ops as [|o ops IH]; intros s Hnd; [done|]. simpl. apply IH.
  destruct (account_step_rows o s) as [Hsame|(m & pw & b & Hfree & ->)].
  - by rewrite (same_accounts_names _ _ Hsame).
  - rewrite fmap_app. apply NoDup_app. split_and!; [done| |].
    + intros x Hx Hin. apply list_elem_of_singleton in Hin as ->.
      by apply find_user_None_names in Hfree.
    + apply NoDup_singleton.
Qed.

(** Witness for X3: the fixture's names are unique and stay so. *)
Lemma usernames_stay_unique_witness :
  NoDup (username <$> users
           (account_steps
              [DoRegister (js "t") (js "dave") (js "pw99") (js "");
               DoRegister (js "t") (js "alice") (js "other") (js "");
               DoPurchase 5 (js "p1") (js "alice")] Demo.store0)).
Proof.
  apply usernames_stay_unique.
  apply (bool_decide_unpack _). vm_compute. exact I.
Defined.

Lemma name_stays (o : AccountOp) (s : Store) (n : jsstring) :
  n ∈ username <$> users s → n ∈ username <$> users (account_step o s).
Proof.
  intros Hn. destruct (account_step_rows o s)
    as [Hsame|(m & pw & b & _ & ->)].
  - by rewrite (same_accounts_names _ _ Hsame).
  - rewrite fmap_app. apply elem_of_app. by left.
Qed.

(** X1: a registered username is never free again: once [register] has
    accepted a name, every later registration of that name is refused as
    taken and writes nothing, whatever account operations ran in between
    and whatever password and bio are offered. *)
Theorem registered_name_stays_taken (tok n pw b : jsstring) (s s1 : Store)
    (r : LoginResult) (ops : list AccountOp) (tok' pw' b' : jsstring) :
  register tok n pw b s = (Fulfilled r, s1) →
  register tok' n pw' b' (account_steps ops s1)
  = (Refused UsernameTaken, account_steps ops s1).
Proof.
  intros Hreg.
  assert (Hin : n ∈ username <$> users s1).
  { unfold register in Hreg.
    destruct (find_user n (users s)); simplify_eq/=.
    rewrite fmap_app. apply elem_of_app. right. by apply list_elem_of_singleton. }
  assert (Hlater : n ∈ username <$> users (account_steps ops s1)).
  { clear Hreg. unfold account_steps. revert s1 Hin.
    induction ops as [|o ops IH]; intros s1 Hin; [done|].
    simpl. apply IH. by apply name_stays. }
  unfold register.
  destruct (find_user n (users (account_steps ops s1))) eqn:Hf; [done|].
  by apply find_user_None_names in Hf.
Qed.

(** Witness for X1: dave registers, bans and purchases follow, and dave
    cannot be registered again. *)
Lemma registered_name_stays_taken_witness :
  let s1 := (register (js "t") (js "dave") (js "pw99") (js "hi") Demo.store0).2 in
  let s2 := account_steps [DoBan Clock.utc 0 (js "dave") (Some 3) (js "root");
                           DoPurchase 5 (js "p1") (js "alice")] s1 in
  register (js "t2") (js "dave") (js "again") (js "") s2
  = (Refused UsernameTaken, s2).
Proof.
  intros s1 s2.
  apply (registered_name_stays_taken (js "t") (js "dave") (js "pw99") (js "hi")
           Demo.store0 s1
           {| lr_user := withoutPassword (newUser (js "dave") (js "pw99") (js "hi"));
              lr_token := js "t" |}).
  reflexivity.
Defined.

(** ** Registration, passwords and bans, followed by a login *)

(** X2: a successful registration can be used at once: login with the
    registered name and password resolves with the registered record
    (starting balance 5,000,000) and writes nothing, and login with any
    other password is refused as invalid credentials. *)
Theorem register_then_login (tok n pw b : jsstring) (s s1 : Store)
    (r : LoginResult) :
  register tok n pw b s = (Fulfilled r, s1) →
  pu_balance (lr_user r) = 5000000
  ∧ (∀ now tok',
       login now tok' n pw s1
       = (Resolve {| lr_user := lr_user r; lr_token := tok' |}, s1))
  ∧ (∀ now tok' pw', pw' ≠ pw →
       login now tok' n pw' s1 = (Reject InvalidCredentials, s1)).
Proof.
  unfold register. destruct (find_user n (users s)) eqn:Hfree; [done|].
  intros [= <- <-]. simpl.
  assert (Hfound : find_user n (users s ++ [newUser n pw b])
                   = Some (length (users s), newUser n pw b)).
  { rewrite find_user_app, Hfree. by rewrite decide_True. }
  split_and!; [done| |].
  - intros now tok'.
    by apply (login_allowed now tok' n _ (length (users s)) (newUser n pw b)).
  - intros now tok' pw' Hpw.
    apply (login_wrong_password now tok' n pw'
             (set_users (users s ++ [newUser n pw b]) s) _ _ Hfound).
    by simpl.
Qed.

(** Witness for X2: dave registers and logs in. *)
Lemma register_then_login_witness :
  let s1 := (register (js "t") (js "dave") (js "pw99") (js "hi") Demo.store0).2 in
  login 7 (js "t2") (js "dave") (js "pw99") s1
  = (Resolve {| lr_user := withoutPassword (newUser (js "dave") (js "pw99") (js "hi"));
                lr_token := js "t2" |}, s1).
Proof.
  intros s1.
  apply (register_then_login (js "t") (js "dave") (js "pw99") (js "hi")
           Demo.store0 s1
           {| lr_user := withoutPassword (newUser (js "dave") (js "pw99") (js "hi"));
              lr_token := js "t" |}).
  reflexivity.
Defined.

(** X4: a password change takes effect for login: after [updatePassword]
    succeeded, login with any password other than the new one is refused as
    invalid credentials, and login with the new password gives the answer
    that login with the old password gave before the change, leaving the
    store that this earlier login followed by the same change leaves. *)
Theorem password_change_then_login (n old new : jsstring) (s s1 : Store)
    (r : PublicUser) :
  updatePassword n old new s = (Fulfilled r, s1) →
  (∀ now tok pw, pw ≠ new →
     login now tok n pw s1 = (Reject InvalidCredentials, s1))
  ∧ (∀ now tok,
       login now tok n new s1
       = ((login now tok n old s).1,
          (updatePassword n old new (login now tok n old s).2).2)).
Proof.
  unfold updatePassword at 1.
  destruct (find_user n (users s)) as [[i u]|] eqn:Hf; [|done].
  destruct (bool_decide (password u ≠ old)) eqn:Hold; [done|].
  apply bool_decide_eq_false in Hold. apply dec_stable in Hold.
  intros [= <- <-]. simpl.
  destruct (find_user_lookup _ _ _ _ Hf) as [Hi Hn].
  assert (Hf1 : find_user n (<[i := set_password new u]> (users s))
                = Some (i, set_password new u)).
  { by apply (find_user_insert_same (set_password new)). }
  split.
  - intros now tok pw Hpw.
    apply (login_wrong_password now tok n pw
             (set_users (<[i := set_password new u]> (users s)) s) _ _ Hf1).
    simpl. congruence.
  - intros now tok. subst old.
    destruct (canLogin u) eqn:Hcan.
    + rewrite (login_allowed now tok n s i u Hf Hcan). simpl.
      unfold updatePassword. rewrite Hf.
      rewrite bool_decide_eq_false_2 by (by intros []). simpl.
      by apply (login_allowed now tok n _ i (set_password new u)).
    + destruct (showsBanned u now) eqn:Hshow.
      * unfold showsBanned in Hshow.
        destruct (banExpiry u) as [e|] eqn:He; [|done].
        apply Z.ltb_lt in Hshow.
        rewrite (login_refused now tok n s i u e Hf Hcan He Hshow). simpl.
        unfold updatePassword. rewrite Hf.
        rewrite bool_decide_eq_false_2 by (by intros []). simpl.
        exact (login_refused now tok n
                 (set_users (<[i := set_password new u]> (users s)) s)
                 i (set_password new u) e Hf1 Hcan He Hshow).
      * rewrite (login_lifts now tok n s i u Hf Hcan Hshow). simpl.
        unfold updatePassword. simpl.
        rewrite (find_user_alter_same (set_ban true None) n _ i u) by done.
        simpl. rewrite bool_decide_eq_false_2 by (by intros []). simpl.
        pose proof (login_lifts now tok n
                      (set_users (<[i := set_password new u]> (users s)) s)
                      i (set_password new u) Hf1 Hcan Hshow) as Hl.
        simpl in Hl. rewrite Hl. unfold set_users. simpl. do 2 f_equal.
        rewrite <- (insert_as_alter (set_ban true None) (users s) i u) by done.
        rewrite <- (insert_as_alter (set_ban true None) _ i (set_password new u)).
        { by rewrite !list_insert_insert_eq. }
        rewrite list_lookup_insert_eq; [done|]. by eapply lookup_lt_Some.
Qed.

(** Witness for X4: alice changes her password; the old one stops working
    and the new one logs her in. *)
Lemma password_change_then_login_witness :
  let s1 := (updatePassword (js "alice") (js "alice-pw") (js "n3w-pw")
               Demo.store0).2 in
  login 7 (js "t") (js "alice") (js "alice-pw") s1
    = (Reject InvalidCredentials, s1)
  ∧ login 7 (js "t") (js "alice") (js "n3w-pw") s1
    = (Resolve {| lr_user := withoutPassword Demo.alice;
                  lr_token := js "t" |}, s1).
Proof.
  intros s1.
  destruct (password_change_then_login (js "alice") (js "alice-pw")
              (js "n3w-pw") Demo.store0 s1
              (withoutPassword (set_password (js "n3w-pw") Demo.alice)))
    as [Hother Hnew]; [reflexivity|].
  split.
  - apply Hother. vm_compute. discriminate.
  - rewrite Hnew. reflexivity.
Defined.






(** X7: unban undoes a ban: for a user who could log in and had no ban
    expiry, [api.banUser] followed by [api.unbanUser] by an administrator
    resolves with the user's original row and leaves the store exactly as
    it was before the ban. *)
Theorem ban_then_unban_restores (tz : TimeZone) (T d : Z)
    (n adminName : jsstring) (s : Store) (i : nat) (u : User) :
  isAdmin_named adminName (users s) = true → 1 ≤ d ≤ 365 →
  find_user n (users s) = Some (i, u) →
  canLogin u = true → banExpiry u = None →
  unbanUser n adminName (banUser tz T n (Some d) adminName s).2
  = (Resolve u, s).
Proof.
  intros Hadm Hd Hf Hcan Hexp.
  rewrite (banUser_applied tz T n adminName d s i u Hadm Hd Hf). simpl.
  destruct (find_user_lookup _ _ _ _ Hf) as [Hi _].
  assert (Hback : set_ban true None (set_ban false (Some (addDays tz T d)) u)
                  = u).
  { destruct u; simpl in *. by subst. }
  unfold unbanUser. run. simpl.
  assert (Hadm' : isAdmin_named adminName
                    (<[i := set_ban false (Some (addDays tz T d)) u]>
                       (users s))
                  = true).
  { rewrite <- Hadm. apply same_accounts_admin.
    by apply (same_accounts_insert (set_ban false _)). }
  rewrite Hadm'. simpl.
  rewrite (find_user_insert_same (set_ban false _) n (users s) i u) by done.
  simpl. rewrite Hback. unfold set_users. simpl.
  rewrite list_insert_insert_eq, list_insert_id by done. by destruct s.
Qed.

(** Witness for X7: root bans and unbans bob. *)
Lemma ban_then_unban_restores_witness :
  unbanUser (js "bob") (js "root")
    (banUser Clock.utc 0 (js "bob") (Some 30) (js "root") Demo.store0).2
  = (Resolve Demo.bob, Demo.store0).
Proof.
  apply (ban_then_unban_restores Clock.utc 0 30 (js "bob") (js "root")
           Demo.store0 1 Demo.bob); [reflexivity | lia | reflexivity..].
Defined.

(** X8: the profile page's "banned" badge and login agree on users that
    satisfy the row invariant (a user who can log in has no ban expiry):
    the badge is shown at a given time exactly when login with the right
    password at that time is refused as banned. *)
Theorem ban_badge_matches_login (now : Z) (tok n : jsstring) (s : Store)
    (i : nat) (u : User) :
  find_user n (users s) = Some (i, u) → user_inv u →
  showsBanned u now = true ↔
  ∃ k, login now tok n (password u) s = (Reject (Banned k), s).
Proof.
  intros Hf Hinv. split.
  - intros Hshow. unfold showsBanned in Hshow.
    destruct (banExpiry u) as [e|] eqn:He; [|done].
    apply Z.ltb_lt in Hshow.
    assert (Hcan : canLogin u = false).
    { unfold user_inv in Hinv. rewrite He in Hinv.
      destruct (canLogin u); [|done]. by specialize (Hinv eq_refl). }
    eexists. by apply (login_refused now tok n s i u e).
  - intros [k Hrun]. destruct (canLogin u) eqn:Hcan.
    + by rewrite (login_allowed now tok n s i u Hf Hcan) in Hrun.
    + destruct (showsBanned u now) eqn:Hshow; [done|].
      by rewrite (login_lifts now tok n s i u Hf Hcan Hshow) in Hrun.
Qed.

(** Witness for X8: carol, banned until day 7, on day 1. *)
Lemma ban_badge_matches_login_witness :
  showsBanned Demo.carol (1 * DAY) = true ↔
  ∃ k, login (1 * DAY) (js "t") (js "carol") (js "carol-pw") Demo.store0
       = (Reject (Banned k), Demo.store0).
Proof.
  apply (ban_badge_matches_login (1 * DAY) (js "t") (js "carol") Demo.store0
           2 Demo.carol); [reflexivity | intros [=]].
Defined.

(** ** Purchases: the button, the money, the history *)

Lemma set_balance_same (u : User) : set_balance (balance u) u = u.
Proof. by destruct u. Qed.

Lemma purchase_buyer_row (now : Z) (pid uname : jsstring) (s s' : Store)
    (r : PurchaseResult) :
  purchaseProduct now pid uname s = (Resolve r, s') →
  ∃ i x, find_user uname (users s') = Some (i, x)
         ∧ balance x = buyerBalance r.
Proof.
  intros Hrun.
  destruct (purchase_cases now pid uname s)
    as [[e He]|(idx & p0 & i & b & Hp0 & Hsold & Hb & Hfunds)];
    [by rewrite He in Hrun|].
  rewrite (purchase_run now pid s idx p0 Hp0 uname i b Hsold Hb Hfunds)
    in Hrun.
  injection Hrun as <- <-. simpl.
  set (debit := λ u, set_balance (num_sub (balance u) (price p0)) u).
  set (credit := λ u, set_balance (num_add (balance u) (price p0)) u).
  assert (H1 : find_user uname (alter debit i (users s)) = Some (i, debit b)).
  { by apply find_user_alter_same. }
  destruct (userIndex_of (author p0) (alter debit i (users s))) as [j|].
  - pose proof (find_user_alter credit uname (alter debit i (users s)) j
                  ltac:(done)) as H2.
    rewrite H1 in H2. simpl in H2. eexists i, _. split; [exact H2|].
    apply find_user_lookup in H2 as [-> _]. done.
  - exists i, (debit b). split; [done|].
    apply find_user_lookup in H1 as [-> _]. done.
Qed.

(** X9: the purchase button.  With a user logged in, the first click only
    arms the confirmation and writes nothing.  The second click runs the
    purchase; when it resolves, the store is exactly the store the purchase
    left (the follow-up balance update writes the stored balance back), the
    page shows the stamped product, and the provider's current user is the
    buyer's stored row without password, whose balance is the balance the
    purchase returned; when it rejects, the store is unchanged. *)
Theorem purchase_button (now : Z) (pid : jsstring) (a : App)
    (page : DetailPage) (user : PublicUser) :
  ctx_user (auth a) = Some user →
  (confirmPurchase page = false →
     handlePurchase now pid (a, page)
     = (a, {| shown := shown page; confirmPurchase := true;
              page_loading := page_loading page |}))
  ∧ (∀ r s',
       confirmPurchase page = true →
       purchaseProduct now pid (pu_username user) (db a) = (Resolve r, s') →
       ∃ x, user_named (pu_username user) (users s') = Some x
            ∧ balance x = buyerBalance r
            ∧ handlePurchase now pid (a, page)
              = ({| db := s';
                    auth := {| ctx_user := Some (withoutPassword x);
                               isLoading := false;
                               auth_session := auth_session (auth a) |} |},
                 {| shown := Some (pr_product r); confirmPurchase := false;
                    page_loading := false |}))
  ∧ (∀ e s',
       confirmPurchase page = true →
       purchaseProduct now pid (pu_username user) (db a) = (Reject e, s') →
       db (handlePurchase now pid (a, page)).1 = db a).
Proof.
  intros Huser. split_and!.
  - intros Hc. unfold handlePurchase. by rewrite Huser, Hc.
  - intros r s' Hc Hrun.
    destruct (purchase_buyer_row _ _ _ _ _ _ Hrun) as (i & x & Hx & Hbal).
    exists x. unfold user_named. rewrite Hx. split_and!; [done..|].
    unfold handlePurchase. rewrite Huser, Hc, Hrun. simpl.
    destruct (find_user_lookup _ _ _ _ Hx) as [Hi Hname].
    unfold ctx_updateBalance, with_auth. simpl. rewrite Huser.
    unfold updateBalance. simpl. rewrite Hx, <- Hbal, set_balance_same.
    rewrite list_insert_id, set_users_same by done.
    unfold refreshUser, with_auth, fetchUser, user_named.
    destruct (balance x <? 0); simpl; rewrite ?Huser; simpl;
      rewrite ?Hname, Hx; done.
  - intros e s' Hc Hrun. unfold handlePurchase. rewrite Huser, Hc, Hrun.
    simpl. by apply purchase_reject_unchanged in Hrun.
Qed.

(** Witness for X9: alice, logged in, clicks twice on p1. *)
Lemma purchase_button_witness :
  let a := {| db := Demo.store0;
              auth := {| ctx_user := Demo.alice_view; isLoading := false;
                         auth_session := Missing |} |} in
  let idle := {| shown := Some Demo.p1; confirmPurchase := false;
                 page_loading := false |} in
  let armed := {| shown := Some Demo.p1; confirmPurchase := true;
                  page_loading := false |} in
  handlePurchase 9 (js "p1") (a, idle) = (a, armed)
  ∧ db (handlePurchase 9 (js "p1") (a, armed)).1
    = (purchaseProduct 9 (js "p1") (js "alice") Demo.store0).2
  ∧ pu_balance <$> ctx_user (auth (handlePurchase 9 (js "p1") (a, armed)).1)
    = Some 4900000.
Proof.
  intros a idle armed. split.
  - apply (purchase_button 9 (js "p1") a idle (withoutPassword Demo.alice));
      reflexivity.
  - destruct (purchase_button 9 (js "p1") a armed (withoutPassword Demo.alice)
                eq_refl) as (_ & Hsecond & _).
    destruct (Hsecond _ _ eq_refl eq_refl) as (x & Hx & Hbal & ->).
    split; [reflexivity|]. simpl. f_equal. exact Hbal.
Defined.

Lemma total_balance_alter (f : User → User) (us : list User) (i : nat)
    (u : User) :
  us !! i = Some u →
  total_balance (alter f i us) = total_balance us - balance u + balance (f u).
Proof.
  revert i. induction us as [|v us IH]; intros [|i] Hi; simplify_eq/=.
  - lia.
  - rewrite (IH i) by done. lia.
Qed.

Lemma total_balance_nonneg (us : list User) :
  Forall (λ u, 0 ≤ balance u) us → 0 ≤ total_balance us.
Proof. induction 1; simpl; lia. Qed.

Lemma balance_le_total (us : list User) (i : nat) (u : User) :
  Forall (λ u, 0 ≤ balance u) us → us !! i = Some u →
  balance u ≤ total_balance us.
Proof.
  intros Hpos. revert i. induction Hpos as [|v us Hv Hus IH]; intros [|i] Hi;
    simplify_eq/=.
  - pose proof (total_balance_nonneg us Hus). lia.
  - specialize (IH i Hi). lia.
Qed.

Lemma two_balances_le_total (us : list User) (i j : nat) (b a : User) :
  Forall (λ u, 0 ≤ balance u) us →
  us !! i = Some b → us !! j = Some a → i ≠ j →
  balance a + balance b ≤ total_balance us.
Proof.
  intros Hpos. revert i j.
  induction Hpos as [|v us Hv Hus IH]; intros [|i] [|j] Hi Hj Hne;
    simplify_eq/=.
  - pose proof (balance_le_total us j a Hus Hj). lia.
  - pose proof (balance_le_total us i b Hus Hi). lia.
  - assert (i ≠ j) by congruence. specialize (IH i j Hi Hj ltac:(done)). lia.
Qed.

(** X10: a purchase creates no money.  For stored balances and a price that
    are non-negative integers with all balances together below 2^53 (where
    the additions and subtractions of the source are exact): when the
    purchase resolves and the product's author has an account, the sum of
    all stored balances is what it was; when the author has no account the
    sum drops by the price. *)
Theorem purchase_conserves_money (now : Z) (pid uname : jsstring)
    (s s' : Store) (r : PurchaseResult) :
  purchaseProduct now pid uname s = (Resolve r, s') →
  Forall (λ u, 0 ≤ balance u) (users s) →
  0 ≤ price (pr_product r) →
  total_balance (users s) < 2 ^ 53 →
  total_balance (users s')
  = match user_named (author (pr_product r)) (users s) with
    | Some _ => total_balance (users s)
    | None => total_balance (users s) - price (pr_product r)
    end.
Proof.
  intros Hrun Hpos Hprice Htotal.
  destruct (purchase_cases now pid uname s)
    as [[e He]|(idx & p0 & i & b & Hp0 & Hsold & Hb & Hfunds)];
    [by rewrite He in Hrun|].
  rewrite (purchase_run now pid s idx p0 Hp0 uname i b Hsold Hb Hfunds)
    in Hrun.
  injection Hrun as <- <-. simpl in *.
  set (debit := λ u, set_balance (num_sub (balance u) (price p0)) u).
  set (credit := λ u, set_balance (num_add (balance u) (price p0)) u).
  destruct (find_user_lookup _ _ _ _ Hb) as [Hi _].
  pose proof (balance_le_total _ _ _ Hpos Hi) as Hble.
  assert (Hdb : balance (debit b) = balance b - price p0).
  { apply safe_integer_isDouble. unfold isSafeInteger. lia. }
  pose proof (total_balance_alter debit (users s) i b Hi) as Hd.
  rewrite Hdb in Hd.
  unfold userIndex_of, user_named.
  rewrite (find_user_alter debit (author p0)) by done.
  destruct (find_user (author p0) (users s)) as [[j a]|] eqn:Ha; simpl.
  - destruct (find_user_lookup _ _ _ _ Ha) as [Hja _].
    assert (Hj : alter debit i (users s) !! j
                 = Some (if decide (j = i) then debit a else a)).
    { rewrite list_lookup_alter. destruct (decide (i = j)) as [->|].
      - by rewrite Hja, decide_True.
      - by rewrite Hja, decide_False. }
    rewrite (total_balance_alter credit _ j _ Hj), Hd.
    destruct (decide (j = i)) as [->|Hne].
    + assert (a = b) as -> by congruence.
      assert (Hcd : balance (credit (debit b)) = balance b).
      { apply num_sub_add; apply safe_integer_isDouble; unfold isSafeInteger;
          lia. }
      rewrite Hcd, Hdb. lia.
    + pose proof (two_balances_le_total _ _ _ _ _ Hpos Hi Hja
                    ltac:(congruence)) as Htwo.
      pose proof (Forall_lookup_1 _ _ _ _ Hpos Hja) as Ha0. simpl in Ha0.
      assert (Hca : balance (credit a) = balance a + price p0).
      { apply safe_integer_isDouble. unfold isSafeInteger. lia. }
      rewrite Hca. lia.
  - rewrite Hd. lia.
Qed.

(** Witness for X10: alice buys p1 from bob; carol buys p4 whose author
    has no account. *)
Lemma purchase_conserves_money_witness :
  total_balance (users Demo.store0) = 5250000
  ∧ total_balance
      (users (purchaseProduct 9 (js "p1") (js "alice") Demo.store0).2)
    = 5250000
  ∧ total_balance
      (users (purchaseProduct 9 (js "p4") (js "carol") Demo.store0).2)
    = 5250000 - 50.
Proof.
  assert (Hpos : Forall (λ u, 0 ≤ balance u) (users Demo.store0)).
  { repeat constructor; simpl; lia. }
  split_and!.
  - reflexivity.
  - exact (purchase_conserves_money 9 (js "p1") (js "alice") Demo.store0
             (purchaseProduct 9 (js "p1") (js "alice") Demo.store0).2
             {| pr_product := set_purchase (js "alice") 9 Demo.p1;
                buyerBalance := 4900000 |} eq_refl Hpos
             ltac:(simpl; lia) ltac:(vm_compute; reflexivity)).
  - exact (purchase_conserves_money 9 (js "p4") (js "carol") Demo.store0
             (purchaseProduct 9 (js "p4") (js "carol") Demo.store0).2
             {| pr_product := set_purchase (js "carol") 9 Demo.p4;
                buyerBalance := 249950 |} eq_refl Hpos
             ltac:(simpl; lia) ltac:(vm_compute; reflexivity)).
Defined.

(** X11: a product is sold at most once: after a purchase by a buyer with
    a non-empty username resolved, every further purchase of the same
    product id, by anyone at any time, is refused as already sold and
    writes nothing. *)
Theorem sold_at_most_once (now : Z) (pid uname : jsstring) (s s' : Store)
    (r : PurchaseResult) (now' : Z) (uname' : jsstring) :
  purchaseProduct now pid uname s = (Resolve r, s') → uname ≠ [] →
  purchaseProduct now' pid uname' s' = (Reject AlreadySold, s').
Proof.
  intros Hrun Hname.
  destruct (purchase_cases now pid uname s)
    as [[e He]|(idx & p0 & i & b & Hp0 & Hsold & Hb & Hfunds)];
    [by rewrite He in Hrun|].
  rewrite (purchase_run now pid s idx p0 Hp0 uname i b Hsold Hb Hfunds)
    in Hrun.
  injection Hrun as <- <-.
  unfold purchaseProduct. run. simpl.
  rewrite (find_product_insert_same pid _ idx p0 (set_purchase uname now p0))
    by done.
  simpl. by destruct uname.
Qed.

(** Witness for X11: after alice bought p1, carol cannot. *)
Lemma sold_at_most_once_witness :
  let s1 := (purchaseProduct 9 (js "p1") (js "alice") Demo.store0).2 in
  purchaseProduct 20 (js "p1") (js "carol") s1 = (Reject AlreadySold, s1).
Proof.
  intros s1.
  apply (sold_at_most_once 9 (js "p1") (js "alice") Demo.store0 s1
           {| pr_product := set_purchase (js "alice") 9 Demo.p1;
              buyerBalance := 4900000 |});
    [reflexivity | vm_compute; discriminate].
Defined.

Lemma sold_at_insert (ps : list Product) (idx i : nat) (p0 q : Product)
    (pid buyer : jsstring) :
  ps !! idx = Some p0 →
  p_id q = p_id p0 →
  (purchasedBy p0 = Some buyer → purchasedBy q = Some buyer) →
  sold_at ps i pid buyer → sold_at (<[idx := q]> ps) i pid buyer.
Proof.
  intros Hidx Hid Hq (p & Hp & Hpid & Hd).
  destruct (decide (i = idx)) as [->|Hne].
  - exists q. rewrite list_lookup_insert_eq by by eapply lookup_lt_Some.
    split_and!; [done|congruence|]. apply Hq. congruence.
  - exists p. by rewrite list_lookup_insert_ne.
Qed.

Lemma exec_keeps_sold (o : Op) (s : Store) (i : nat) (k buyer : jsstring) :
  buyer ≠ [] →
  sold_at (products s) i k buyer → sold_at (products (exec o s)) i k buyer.
Proof.
  intros Hbuyer Hd. destruct o; simpl.
  - destruct Hd as (p & Hp & Hdel). exists p.
    split; [by apply lookup_app_l_Some|done].
  - unfold updateProduct. run.
    destruct (find_product pid (products s)) as [[idx p0]|] eqn:Hp0; [|done].
    destruct (may_manage p0 uname (users s)); [|done]. simpl.
    apply find_product_lookup in Hp0 as [Hp0 _].
    by apply sold_at_insert with p0.
  - unfold deleteProduct. run.
    destruct (find_product pid (products s)) as [[idx p0]|] eqn:Hp0; [|done].
    destruct (may_manage p0 uname (users s)); [|done]. simpl.
    apply find_product_lookup in Hp0 as [Hp0 _].
    by apply sold_at_insert with p0.
  - destruct (purchase_cases now pid uname s)
      as [[e ->]|(idx & p0 & j & b & Hp0 & Hsold & Hb & Hfunds)]; [done|].
    rewrite (purchase_run now pid s idx p0 Hp0 uname j b Hsold Hb Hfunds).
    simpl. apply find_product_lookup in Hp0 as [Hp0 _].
    apply sold_at_insert with p0; [done..| |done].
    intros Hwas. rewrite Hwas in Hsold. by destruct buyer.
  - destruct Hd as (p & Hp & Hpid & Hdel). exists (sweep_one now p).
    rewrite list_lookup_fmap, Hp. split; [done|].
    unfold sweep_one. by destruct (sweepable now p).
  - unfold handleDeleteContent, verifyAdminAndExecute.
    destruct (truthy_flag (user ≫= pu_isAdmin)); [|done].
    unfold removeReport, updateReportsData, setReports, on_store. run.
    destruct (r_type report); simpl; try done.
    + destruct (messageIndex_of _ _); done.
    + destruct (product_of _ _) as [[idx p0]|] eqn:Hp0; [|done]. simpl.
      unfold product_of in Hp0. destruct (contentId report); [|done].
      apply find_product_lookup in Hp0 as [Hp0 _].
      by apply sold_at_insert with p0.
Qed.

(** X12: a sale is never forgotten or reassigned: once a product is
    recorded as sold to a buyer with a non-empty username, then after any
    sequence of product operations (create, edit, soft delete, purchase,
    sweep, admin content deletion) the product at that position still has
    the same id and the same buyer, and the buyer's purchase history
    ([api.getUserPurchases]) still lists a product with that id. *)
Theorem sales_are_never_lost (ops : list Op) (s : Store) (i : nat)
    (k buyer : jsstring) :
  buyer ≠ [] →
  sold_at (products s) i k buyer →
  sold_at (products (exec_all ops s)) i k buyer
  ∧ ∃ p, p ∈ getUserPurchases buyer (exec_all ops s) ∧ p_id p = k.
Proof.
  intros Hbuyer Hsold.
  assert (Hafter : sold_at (products (exec_all ops s)) i k buyer).
  { unfold exec_all. revert s Hsold.
    induction ops as [|o ops IH]; intros s Hsold; [done|].
    simpl. apply IH. by apply exec_keeps_sold. }
  split; [done|]. destruct Hafter as (p & Hp & Hid & Hby).
  exists p. split; [|done]. unfold getUserPurchases.
  apply list_elem_of_filter. split; [done|]. by eapply list_elem_of_lookup_2.
Qed.

(** Witness for X12: p3, sold to alice, through a sweep, a soft delete and
    a purchase attempt. *)
Lemma sales_are_never_lost_witness :
  ∃ p, p ∈ getUserPurchases (js "alice")
             (exec_all [SweepExpiredSales (9 * DAY);
                        SoftDeleteListing (js "p3") (js "bob");
                        Purchase (10 * DAY) (js "p3") (js "carol")]
                       Demo.store0)
       ∧ p_id p = js "p3".
Proof.
  apply (sales_are_never_lost _ Demo.store0 2 (js "p3") (js "alice")).
  - vm_compute. discriminate.
  - exists Demo.p3. split_and!; reflexivity.
Defined.

(** ** The product list *)

(** X13: after a sweep at time [now], the product list
    ([api.getProducts]) shows no product that was sold more than 24 hours
    before [now]. *)
Theorem swept_sales_leave_the_list (now : Z) (s : Store) (p : Product) :
  p ∈ getProducts (cleanupPurchasedProducts now s).2 →
  ∀ t, purchasedAt p = Some t → now ≤ t + DAY.
Proof.
  unfold getProducts. simpl. rewrite elem_of_reverse, list_elem_of_filter.
  intros [Hlive Hin] t Ht.
  apply list_elem_of_fmap in Hin as (q & -> & _).
  unfold sweep_one in *. destruct (sweepable now q) eqn:Hsw; [done|].
  unfold sweepable in Hsw. rewrite Ht, Hlive in Hsw. simpl in Hsw.
  rewrite andb_true_r in Hsw. by apply Z.ltb_ge in Hsw.
Qed.

(** Witness for X13: p3 was sold at time 1000.  After a sweep at time 2000
    it is still on the list, less than a day having passed; after a sweep
    at day 2 it is not. *)
Lemma swept_sales_leave_the_list_witness :
  purchasedAt Demo.p3 = Some 1000
  ∧ Demo.p3 ∈ getProducts (cleanupPurchasedProducts 2000 Demo.store0).2
  ∧ 2000 ≤ 1000 + DAY
  ∧ (Demo.p3 ∉ getProducts (cleanupPurchasedProducts (2 * DAY) Demo.store0).2).
Proof.
  assert (Hin : Demo.p3 ∈ getProducts
                  (cleanupPurchasedProducts 2000 Demo.store0).2).
  { vm_compute. apply list_elem_of_In. simpl. tauto. }
  split_and!; [reflexivity | exact Hin | |].
  - exact (swept_sales_leave_the_list 2000 Demo.store0 Demo.p3 Hin 1000
             eq_refl).
  - intros Hlate.
    pose proof (swept_sales_leave_the_list (2 * DAY) Demo.store0 Demo.p3
                  Hlate 1000 eq_refl) as Hle.
    vm_compute in Hle. by apply Hle.
Defined.

Lemma elem_of_insert_cases {A} (l : list A) (i : nat) (x y : A) :
  y ∈ <[i := x]> l → y = x ∨ y ∈ l.
Proof.
  intros Hy. apply list_elem_of_lookup in Hy as [j Hj].
  destruct (decide (i = j)) as [->|Hne].
  - destruct (decide (j < length l)%nat).
    + rewrite list_lookup_insert_eq in Hj by done. left. congruence.
    + rewrite list_insert_ge in Hj by lia. right.
      by eapply list_elem_of_lookup_2.
  - rewrite list_lookup_insert_ne in Hj by done. right.
    by eapply list_elem_of_lookup_2.
Qed.

(** X14: a soft delete hides a product from the list but not from its
    page: after [api.deleteProduct] resolved with a product, that product
    is marked deleted and is not in the product list, the list has gained
    nothing, and [api.getProduct] with the same id still resolves with that
    product. *)
Theorem soft_delete_hides_from_list (pid uname : jsstring) (s s1 : Store)
    (p : Product) :
  deleteProduct pid uname s = (Resolve p, s1) →
  isDeleted p = Some true
  ∧ (p ∉ getProducts s1)
  ∧ (∀ q, q ∈ getProducts s1 → q ∈ getProducts s)
  ∧ getProduct pid s1 = Resolve p.
Proof.
  unfold deleteProduct. run.
  destruct (find_product pid (products s)) as [[idx p0]|] eqn:Hp0; [|done].
  destruct (may_manage p0 uname (users s)); [|done]. simpl.
  intros [= <- <-]. unfold getProducts, getProduct. simpl. split_and!.
  - done.
  - rewrite elem_of_reverse, list_elem_of_filter. by intros [? _].
  - intros q. rewrite !elem_of_reverse, !list_elem_of_filter.
    intros [Hlive Hin]. split; [done|].
    apply elem_of_insert_cases in Hin as [->|Hin]; done.
  - by rewrite (find_product_insert_same pid _ idx p0 (set_isDeleted true p0)).
Qed.

(** Witness for X14: bob deletes p1. *)
Lemma soft_delete_hides_from_list_witness :
  let s1 := (deleteProduct (js "p1") (js "bob") Demo.store0).2 in
  (set_isDeleted true Demo.p1 ∉ getProducts s1)
  ∧ getProduct (js "p1") s1 = Resolve (set_isDeleted true Demo.p1).
Proof.
  intros s1.
  destruct (soft_delete_hides_from_list (js "p1") (js "bob") Demo.store0 s1
              (set_isDeleted true Demo.p1) eq_refl) as (_ & Hout & _ & Hget).
  by split.
Defined.

(** X15: only the author or an administrator changes a product: when the
    acting user is neither the product's author nor a stored administrator,
    [api.updateProduct] (with any patch) and [api.deleteProduct] reject for
    lack of permission and leave the store as it was. *)
Theorem product_changes_need_rights (pid uname : jsstring) (d : ProductPatch)
    (s : Store) (idx : nat) (p : Product) :
  find_product pid (products s) = Some (idx, p) →
  author p ≠ uname →
  (∀ a, user_named uname (users s) = Some a → isAdmin a ≠ Some true) →
  updateProduct pid d uname s = (Reject NoEditPermission, s)
  ∧ deleteProduct pid uname s = (Reject NoDeletePermission, s).
Proof.
  intros Hp Hauthor Hadmin.
  assert (Hno : may_manage p uname (users s) = false).
  { unfold may_manage. rewrite bool_decide_eq_false_2 by done. simpl.
    apply not_true_is_false. intros Hyes.
    apply isAdmin_named_spec in Hyes as (a & Ha & Hflag).
    by apply (Hadmin a). }
  unfold updateProduct, deleteProduct. run. by rewrite Hp, Hno.
Qed.

(** Witness for X15: alice may neither edit nor delete bob's p1. *)
Lemma product_changes_need_rights_witness :
  updateProduct (js "p1") (formPatch (js "x") (js "y") 1 (js "z.png"))
    (js "alice") Demo.store0 = (Reject NoEditPermission, Demo.store0)
  ∧ deleteProduct (js "p1") (js "alice") Demo.store0
    = (Reject NoDeletePermission, Demo.store0).
Proof.
  apply (product_changes_need_rights (js "p1") (js "alice") _ Demo.store0
           0 Demo.p1); [reflexivity | vm_compute; discriminate |].
  intros a [= <-]. discriminate.
Defined.

(** X16: a new listing appears at the top of the product list: after
    [api.createProduct], the list is the new product followed by the list
    as it was. *)
Theorem new_listing_tops_the_list (now : Z) (uuid t d : jsstring) (pr : Z)
    (img a : jsstring) (s : Store) :
  ∃ p s1,
    createProduct now uuid t d pr img a s = (Resolve p, s1)
    ∧ getProducts s1 = p :: getProducts s
    ∧ getUserProducts a s1 = getUserProducts a s ++ [p].
Proof.
  eexists _, _. split; [reflexivity|]. unfold getProducts, getUserProducts.
  simpl. rewrite !filter_app, reverse_app. split; [done|].
  f_equal. rewrite filter_cons_True; done.
Qed.

(** ** Chat *)

(** X17: both participants of a private conversation see the same
    messages: [getPrivateMessages(a, b)] and [getPrivateMessages(b, a)]
    return the same list. *)
Theorem private_messages_symmetric (a b : jsstring) (s : Store) :
  getPrivateMessages a b s = getPrivateMessages b a s.
Proof.
  unfold getPrivateMessages. apply list_filter_iff. intros m. tauto.
Qed.

(** X18: a private message from [a] to [b] is delivered to exactly that
    conversation: after [sendMessage], the conversation of [a] and [b],
    seen from either side, is the old one followed by the message, and the
    conversation of every other pair of users is unchanged. *)
Theorem private_message_delivery (m : ChatMessage) (a b : jsstring)
    (s : Store) :
  isPrivate m = Some true → m_author m = a → recipient m = Some b →
  getPrivateMessages a b (sendMessage m s) = getPrivateMessages a b s ++ [m]
  ∧ getPrivateMessages b a (sendMessage m s)
    = getPrivateMessages b a s ++ [m]
  ∧ (∀ c d, ¬ (c = a ∧ d = b) → ¬ (c = b ∧ d = a) →
       getPrivateMessages c d (sendMessage m s) = getPrivateMessages c d s).
Proof.
  intros Hp Ha Hb. unfold getPrivateMessages, sendMessage, set_messages.
  cbn [messages]. rewrite !filter_app. split_and!.
  - rewrite filter_cons_True; [done|]. rewrite Hp. split; [done|].
    left. by split.
  - rewrite filter_cons_True; [done|]. rewrite Hp. split; [done|].
    right. by split.
  - intros c d H1 H2. rewrite filter_app, filter_cons_False.
    + by rewrite app_nil_r.
    + rewrite Ha, Hb. intros [_ [[-> [= ->]]|[-> [= ->]]]]; tauto.
Qed.

(** Witness for X18: dave writes to alice; carol and bob see nothing of
    it. *)
Lemma private_message_delivery_witness :
  let m := Talk.note "m9" "dave" "alice" "hi alice" in
  getPrivateMessages (js "alice") (js "dave") (sendMessage m Talk.store1) = [m]
  ∧ getPrivateMessages (js "carol") (js "bob") (sendMessage m Talk.store1)
    = getPrivateMessages (js "carol") (js "bob") Talk.store1.
Proof.
  intros m.
  destruct (private_message_delivery m (js "dave") (js "alice") Talk.store1)
    as (_ & Hback & Hothers); [reflexivity..|].
  split.
  - rewrite Hback. reflexivity.
  - apply Hothers; intros [H _]; vm_compute in H; discriminate.
Defined.

Lemma find_message_None (mid : jsstring) (ms : list ChatMessage) :
  find_message mid ms = None ↔ ∀ m, m ∈ ms → m_id m ≠ mid.
Proof. unfold find_message. by rewrite list_find_None, Forall_forall. Qed.

Lemma find_message_after_delete (mid : jsstring) (ms : list ChatMessage) :
  find_message mid (filter (λ msg, m_id msg ≠ mid) ms) = None.
Proof.
  apply find_message_None. intros m Hm.
  by apply list_elem_of_filter in Hm as [? _].
Qed.

(** X19: deleting a chat message.  When [api.deleteMessage] of the public
    chat resolves, the caller is the author of the first message with that
    id or passed the admin flag; afterwards no message has that id, the
    messages with other ids are all still there, a second delete of the id
    is refused as not found, and users, products and reports are as they
    were.  The private chat's [api.deleteMessage] is the same call with the
    admin flag off. *)
Theorem message_delete (mid uname : jsstring) (admin : bool) (s s1 : Store) :
  deleteMessage_public mid uname admin s = (Fulfilled tt, s1) →
  (∃ i m, find_message mid (messages s) = Some (i, m)
          ∧ (m_author m = uname ∨ admin = true))
  ∧ (∀ m, m ∈ messages s1 ↔ m ∈ messages s ∧ m_id m ≠ mid)
  ∧ deleteMessage_public mid uname admin s1 = (Refused NoSuchMessage, s1)
  ∧ users s1 = users s ∧ products s1 = products s ∧ reports s1 = reports s
  ∧ deleteMessage mid uname s = deleteMessage_public mid uname false s.
Proof.
  unfold deleteMessage_public at 1.
  destruct (find_message mid (messages s)) as [[i m]|] eqn:Hf; [|done].
  destruct (bool_decide (m_author m ≠ uname) && negb admin) eqn:Hok; [done|].
  intros [= <-]. simpl. split_and!; try done.
  - exists i, m. split; [done|].
    apply andb_false_iff in Hok as [Hok|Hok].
    + left. apply bool_decide_eq_false in Hok. by apply dec_stable.
    + right. by destruct admin.
  - intros m'. rewrite list_elem_of_filter. tauto.
  - unfold deleteMessage_public. simpl.
    by rewrite find_message_after_delete.
  - unfold deleteMessage, deleteMessage_public.
    destruct (find_message mid (messages s)) as [[j m']|]; [|done].
    by rewrite andb_true_r.
Qed.

(** Witness for X19: bob may not delete alice's m1, the administrator
    may, and then it is gone. *)
Lemma message_delete_witness :
  deleteMessage (js "m1") (js "bob") Talk.store1
    = (Refused NoDeleteRight, Talk.store1)
  ∧ let s1 := (deleteMessage_public (js "m1") (js "root") true Talk.store1).2 in
    deleteMessage_public (js "m1") (js "root") true s1
    = (Refused NoSuchMessage, s1).
Proof.
  split; [reflexivity|]. intros s1.
  by destruct (message_delete (js "m1") (js "root") true Talk.store1 s1 eq_refl)
    as (_ & _ & Hagain & _).
Defined.

Lemma unique_id_rewrite (ms : list ChatMessage) (i : nat) (m : ChatMessage)
    (f : ChatMessage → ChatMessage) :
  NoDup (m_id <$> ms) → ms !! i = Some m →
  (λ msg, if decide (m_id msg = m_id m) then f msg else msg) <$> ms
  = <[i := f m]> ms.
Proof.
  intros Hnd Hi. apply list_eq. intros j.
  rewrite list_lookup_fmap.
  destruct (decide (i = j)) as [<-|Hne].
  - rewrite list_lookup_insert_eq by by eapply lookup_lt_Some.
    rewrite Hi. simpl. by rewrite decide_True.
  - rewrite list_lookup_insert_ne by done.
    destruct (ms !! j) as [m'|] eqn:Hj; [|done]. simpl.
    rewrite decide_False; [done|]. intros Heq. apply Hne.
    apply (NoDup_lookup (m_id <$> ms) i j (m_id m)); [done|..];
      rewrite list_lookup_fmap; [by rewrite Hi|by rewrite Hj, <- Heq].
Qed.

(** X20: editing a chat message when message ids are unique.  The
    author's edit resolves with the message carrying the new content and
    its other fields (id, author, time, privacy flag, recipient) as they
    were; that message is stored at the message's position; every other
    message, and users, products and reports, stay as they were; the
    private chat's and the public chat's [api.editMessage] give the same
    answer and the same store.  A user who is not the author is refused and
    nothing is written. *)
Theorem message_edit (mid c uname : jsstring) (s : Store) (i : nat)
    (m : ChatMessage) :
  NoDup (m_id <$> messages s) →
  find_message mid (messages s) = Some (i, m) →
  (m_author m = uname →
     ∃ m' s1,
       editMessage mid c uname s = (Fulfilled m', s1)
       ∧ editMessage_public mid c uname s = (Fulfilled m', s1)
       ∧ content m' = c
       ∧ same_but_content m m'
       ∧ messages s1 !! i = Some m'
       ∧ length (messages s1) = length (messages s)
       ∧ (∀ j, j ≠ i → messages s1 !! j = messages s !! j)
       ∧ users s1 = users s ∧ products s1 = products s
       ∧ reports s1 = reports s)
  ∧ (m_author m ≠ uname →
       editMessage mid c uname s = (Refused NoEditRight, s)
       ∧ editMessage_public mid c uname s = (Refused NoEditRight, s)).
Proof.
  intros Hnd Hf.
  pose proof Hf as Hl. apply list_find_Some in Hl as (Hi & Hid & _).
  split.
  - intros Ha.
    exists (set_content c m),
      (set_messages (<[i := set_content c m]> (messages s)) s).
    split_and!; try done.
    + unfold editMessage. rewrite Hf.
      rewrite bool_decide_eq_false_2 by (by intros []). subst mid.
      by rewrite (unique_id_rewrite _ i m (λ _, set_content c m)).
    + unfold editMessage_public. rewrite Hf.
      rewrite bool_decide_eq_false_2 by (by intros []). subst mid.
      by rewrite (unique_id_rewrite _ i m (set_content c)).
    + simpl. apply list_lookup_insert_eq. by eapply lookup_lt_Some.
    + simpl. by rewrite length_insert.
    + intros j Hj. simpl. by rewrite list_lookup_insert_ne.
  - intros Ha. unfold editMessage, editMessage_public. rewrite Hf.
    by rewrite bool_decide_eq_true_2.
Qed.

(** Witness for X20: alice turns her "hello" (m1) into "hello!"; carol's
    m2 stays; bob may not edit m1. *)
Lemma message_edit_witness :
  content <$> messages Talk.store1 !! 0%nat = Some (js "hello")
  ∧ (∃ s1,
       editMessage (js "m1") (js "hello!") (js "alice") Talk.store1
       = (Fulfilled
            {| m_id := js "m1"; content := js "hello!";
               m_author := js "alice"; m_createdAt := 5;
               isPrivate := Some true; recipient := Some (js "bob") |}, s1)
       ∧ content <$> messages s1 !! 0%nat = Some (js "hello!")
       ∧ content <$> messages s1 !! 1%nat = Some (js "hi all"))
  ∧ editMessage (js "m1") (js "hello!") (js "bob") Talk.store1
    = (Refused NoEditRight, Talk.store1).
Proof.
  assert (Hnd : NoDup (m_id <$> messages Talk.store1)).
  { apply (bool_decide_unpack _). vm_compute. exact I. }
  split_and!.
  - reflexivity.
  - destruct (message_edit (js "m1") (js "hello!") (js "alice") Talk.store1 0
                (Talk.note "m1" "alice" "bob" "hello") Hnd eq_refl)
      as [Hown _].
    destruct (Hown eq_refl)
      as (m' & s1 & Hrun & _ & Hc & Hsame & Hrow & _ & Hrest & _).
    assert (Hm : m' = {| m_id := js "m1"; content := js "hello!";
                         m_author := js "alice"; m_createdAt := 5;
                         isPrivate := Some true;
                         recipient := Some (js "bob") |}).
    { destruct Hsame as (? & ? & ? & ? & ?).
      destruct m'; simpl in *. by subst. }
    exists s1. split_and!.
    + by rewrite Hrun, Hm.
    + by rewrite Hrow, Hm.
    + by rewrite (Hrest 1%nat).
  - apply (message_edit (js "m1") (js "hello!") (js "bob") Talk.store1 0
             (Talk.note "m1" "alice" "bob" "hello") Hnd eq_refl).
    vm_compute. discriminate.
Defined.

(** X21: a report about a chat message that has since been deleted cannot
    be acted on: after [api.deleteMessage] removed the message, the
    dashboard's content deletion for a chat report on that message fails
    with "message not found" and changes neither the report table nor
    anything else. *)
Theorem report_on_deleted_message (mid uname : jsstring) (admin : bool)
    (s s1 : Store) (user : option PublicUser) (report : Report)
    (d : Dashboard) :
  deleteMessage_public mid uname admin s = (Fulfilled tt, s1) →
  truthy_flag (user ≫= pu_isAdmin) = true →
  r_type report = TChat → contentId report = Some mid →
  handleDeleteContent user report {| store := s1; dash := d |}
  = (Reject MessageNotFound, {| store := s1; dash := d |}).
Proof.
  unfold deleteMessage_public.
  destruct (find_message mid (messages s)) as [[i m]|] eqn:Hf; [|done].
  destruct (bool_decide (m_author m ≠ uname) && negb admin); [done|].
  intros [= <-] Hadm Htype Hcid.
  unfold handleDeleteContent, verifyAdminAndExecute. rewrite Hadm, Htype.
  run. simpl. unfold messageIndex_of. rewrite Hcid.
  pose proof (find_message_after_delete mid (messages s)) as Hgone.
  unfold find_message in Hgone. by rewrite Hgone.
Qed.

(** Witness for X21: alice deletes her m1; root then acts on a report
    about m1. *)
Lemma report_on_deleted_message_witness :
  let s1 := (deleteMessage_public (js "m1") (js "alice") false Talk.store1).2 in
  let report := {| r_id := js "r9"; reportedUser := js "alice";
                   reason := js "spam spam"; reportedBy := js "bob";
                   r_createdAt := 8; r_type := TChat;
                   contentId := Some (js "m1") |} in
  handleDeleteContent Demo.root_view report (mountDashboard s1)
  = (Reject MessageNotFound, mountDashboard s1).
Proof.
  intros s1 report.
  apply (report_on_deleted_message (js "m1") (js "alice") false Talk.store1 s1
           Demo.root_view report); reflexivity.
Defined.

(** ** Logout and restoration *)

(** X22: after logout a reload restores nobody: whatever the provider held
    and whatever was persisted, [logout] finishes normally with no current
    user and no persisted session, and a session restoration after it
    finishes normally with no current user. *)
Theorem logout_then_restore (s : Store) (c : AuthCtx) :
  ∃ c1 c2,
    logout c = (Resolve tt, c1)
    ∧ ctx_user c1 = None ∧ auth_session c1 = Missing
    ∧ initializeAuth s c1 = (Resolve tt, c2)
    ∧ ctx_user c2 = None ∧ auth_session c2 = Missing.
Proof.
  eexists _, _. split; [reflexivity|]. simpl. split_and!; done.
Qed.

(** X23: restoring a session twice is restoring it once: a second run of
    the session restoration leaves the provider state that the first run
    left. *)
Theorem restore_is_idempotent (s : Store) (c : AuthCtx) :
  (initializeAuth s (initializeAuth s c).2).2 = (initializeAuth s c).2.
Proof.
  rewrite !initializeAuth_run. simpl.
  destruct (complete_session (session_value (auth_session c))) eqn:Hc.
  - destruct (session_user s (session_value (auth_session c))) eqn:Hu; simpl.
    + by rewrite Hc, Hu.
    + done.
  - simpl. by rewrite Hc.
Qed.

(** ** A sale on the product list, and the dashboard's ban at login *)




